(** * ibkr-tg-alert-bot: the preset registry, the configuration dialogue,
      webhook authentication and the trade block of [bot.py]

    The development embeds the two Flask handlers of [bot.py],
    [telegram_config] and [webhook], together with the Python built-ins they
    call, and states the properties of the specification over them.

    Conventions of the embedding.
    - A Python [str] that enters a handler (the text of a message, a string of
      the JSON payload, a header value) is a Rocq [string]; a character is a
      code point below 256 (an HTTP header value is decoded that way, one byte
      per character). [str.lower], [str.strip] and [str.split] stay in that
      range. [str.upper] does not: it sends the micro sign to U+039C and y
      with diaeresis to U+0178, and the sharp s to two letters. What [upper]
      returns, and with it every ticker of the registry, of a session, of a
      notification and of an order, is therefore a [ustring], the list of the
      code points of the text.
    - A Python [float] is a binary64 value of [PrimFloat.float]; comparisons
      go through [PrimFloat.compare], so a NaN compares false with
      everything, and [/] raises [ZeroDivisionError] on a zero divisor.
    - [bytes] are [list byte].
    - The module-level dictionaries [presets] and [user_states] keep insertion
      order ([/show] enumerates [presets.items()]), so they are association
      lists updated in place.
    - A handler is a function of the process state and of the answers of its
      collaborators (Telegram, the brokerage gateway, the JSON decoder); it
      returns its outcome, the new state and the effects it performed. An
      exception does not roll the state back. *)

From Stdlib Require Import ZArith NArith List String Ascii Bool Lia.
From Stdlib.Strings Require Import Byte.
From Stdlib Require Import Floats DecimalString DecimalPos.
Import ListNotations.

Set Warnings "-inexact-float".

Local Open Scope Z_scope.
Local Open Scope string_scope.
Local Open Scope list_scope.

(** ** Python exceptions and results *)

Inductive exn : Type :=
| NameError
| AttributeError
| KeyError
| IndexError
| TypeError
| ValueError
| ZeroDivisionError
| StopIteration
| JSONDecodeError
| DownstreamError            (* a collaborator (ib_insync, telegram) raised *)
| HTTPException (code : Z).  (* flask.abort(code) *)

Inductive pyresult (A : Type) : Type :=
| Ok (a : A)
| Raise (e : exn).
Arguments Ok {A} a.
Arguments Raise {A} e.

Definition pybind {A B} (r : pyresult A) (k : A -> pyresult B) : pyresult B :=
  match r with
  | Ok a => k a
  | Raise e => Raise e
  end.

Declare Scope py_scope.
Delimit Scope py_scope with py.
Notation "'let?' x ':=' r 'in' k" := (pybind r (fun x => k))
  (at level 10, x name, r at level 100, k at level 200) : py_scope.

Definition of_option {A} (e : exn) (o : option A) : pyresult A :=
  match o with
  | Some a => Ok a
  | None => Raise e
  end.

(** ** Text: the [str] methods the handlers use *)

Module Text.

Definition quote : string := String "034"%char EmptyString.
Definition newline : string := String "010"%char EmptyString.

(** [str.isspace] of one character, on the code points below 256. *)
Definition isspace (c : ascii) : bool :=
  let n := N_of_ascii c in
  (((9 <=? n) && (n <=? 13)) || ((28 <=? n) && (n <=? 32))
   || (n =? 133) || (n =? 160))%N.

Definition isdigit (c : ascii) : bool :=
  let n := N_of_ascii c in ((48 <=? n) && (n <=? 57))%N.

Definition isascii_char (c : ascii) : bool := (N_of_ascii c <? 128)%N.

(** [str.lower] of one character: the letters A-Z, and the capital letters
    of Latin-1 (U+00C0 to U+00DE, the multiplication sign U+00D7 apart). *)
Definition lower_char (c : ascii) : ascii :=
  let n := N_of_ascii c in
  if (((65 <=? n) && (n <=? 90))
      || ((192 <=? n) && (n <=? 222) && negb (n =? 215)))%N
  then ascii_of_N (n + 32) else c.

Fixpoint map_chars (f : ascii -> ascii) (s : string) : string :=
  match s with
  | EmptyString => EmptyString
  | String c r => String (f c) (map_chars f r)
  end.

Definition lower : string -> string := map_chars lower_char.

(** A text by its code points, which may lie above 255. *)
Definition ustring : Type := list N.

(** The code points of a text that has none above 255. *)
Fixpoint ustr (s : string) : ustring :=
  match s with
  | EmptyString => []
  | String c r => N_of_ascii c :: ustr r
  end.

Fixpoint ustring_eqb (a b : ustring) : bool :=
  match a, b with
  | [], [] => true
  | x :: a', y :: b' => (x =? y)%N && ustring_eqb a' b'
  | _, _ => false
  end.

(** [str.upper] of one character: the letters a-z; the small letters of
    Latin-1 (U+00E0 to U+00FE, the division sign U+00F7 apart); the sharp s
    U+00DF, which becomes SS; the micro sign U+00B5, which becomes the Greek
    capital mu U+039C; and y with diaeresis U+00FF, which becomes U+0178. *)
Definition upper_char (c : ascii) : ustring :=
  let n := N_of_ascii c in
  if ((97 <=? n) && (n <=? 122))%N then [n - 32]%N
  else if (n =? 181)%N then [924%N]
  else if (n =? 223)%N then [83%N; 83%N]
  else if ((224 <=? n) && (n <=? 254) && negb (n =? 247))%N then [n - 32]%N
  else if (n =? 255)%N then [376%N]
  else [n].

(** [s.upper()] *)
Fixpoint upper (s : string) : ustring :=
  match s with
  | EmptyString => []
  | String c r => upper_char c ++ upper r
  end.

Fixpoint all_chars (p : ascii -> bool) (s : string) : bool :=
  match s with
  | EmptyString => true
  | String c r => p c && all_chars p r
  end.

Definition isascii : string -> bool := all_chars isascii_char.

Definition is_empty (s : string) : bool :=
  match s with EmptyString => true | _ => false end.

Fixpoint lstrip_with (sp : ascii -> bool) (s : string) : string :=
  match s with
  | EmptyString => EmptyString
  | String c r => if sp c then lstrip_with sp r else s
  end.

Fixpoint rstrip_with (sp : ascii -> bool) (s : string) : string :=
  match s with
  | EmptyString => EmptyString
  | String c r =>
      let r' := rstrip_with sp r in
      if sp c && is_empty r' then EmptyString else String c r'
  end.

Definition strip_with (sp : ascii -> bool) (s : string) : string :=
  rstrip_with sp (lstrip_with sp s).

(** [s.strip()] *)
Definition strip : string -> string := strip_with isspace.

(** [s.startswith(p)] *)
Definition startswith (p s : string) : bool := String.prefix p s.

(** [s.split()]: the maximal runs of non-space characters. [tok] is the run
    being read. *)
Fixpoint split_from (tok : string) (s : string) : list string :=
  match s with
  | EmptyString => if is_empty tok then [] else [tok]
  | String c r =>
      if isspace c
      then (if is_empty tok then split_from EmptyString r
            else tok :: split_from EmptyString r)
      else split_from (tok ++ String c EmptyString) r
  end.

Definition split : string -> list string := split_from EmptyString.

(** The first run of non-space characters of [s] and what follows it. *)
Fixpoint span_token (s : string) : string * string :=
  match s with
  | EmptyString => (EmptyString, EmptyString)
  | String c r =>
      if isspace c then (EmptyString, s)
      else let (t, rest) := span_token r in (String c t, rest)
  end.

(** [s.split(maxsplit=1)]: the first token, then the remainder with its
    leading spaces removed (and its trailing ones kept), when it is not
    empty. *)
Definition split_maxsplit1 (s : string) : list string :=
  let s0 := lstrip_with isspace s in
  if is_empty s0 then []
  else
    let (t, rest) := span_token s0 in
    let rest0 := lstrip_with isspace rest in
    if is_empty rest0 then [t] else [t; rest0].

(** [s.encode()]: UTF-8 of the code points below 256. *)
Fixpoint encode (s : string) : list byte :=
  match s with
  | EmptyString => []
  | String c r =>
      let n := N_of_ascii c in
      if (n <? 128)%N then byte_of_ascii c :: encode r
      else
        match Byte.of_N (192 + n / 64), Byte.of_N (128 + n mod 64) with
        | Some b1, Some b2 => b1 :: b2 :: encode r
        | _, _ => encode r
        end
  end.

End Text.

(** ** Numbers: [float], [int], [str] of an integer, float arithmetic *)

Module Num.

Import Text.
Local Open Scope Z_scope.

(** [a > b], [a >= b] on floats. *)
Definition py_gt (a b : float) : bool :=
  match PrimFloat.compare a b with
  | FGt => true
  | _ => false
  end.

Definition py_ge (a b : float) : bool :=
  match PrimFloat.compare a b with
  | FGt | FEq => true
  | _ => false
  end.

(** [a <= b], used to state properties; the handlers do not call it. *)
Definition py_le (a b : float) : bool :=
  match PrimFloat.compare a b with
  | FLt | FEq => true
  | _ => false
  end.

(** [b == 0.0] *)
Definition is_zero (b : float) : bool :=
  match PrimFloat.compare b 0 with
  | FEq => true
  | _ => false
  end.

(** [a / b]: [float_div] raises on a zero divisor (of either sign) and is the
    IEEE quotient otherwise. *)
Definition py_div (a b : float) : pyresult float :=
  if is_zero b then Raise ZeroDivisionError else Ok (a / b)%float.

(** The whitespace [float()] and [int()] skip around a number: [Py_ISSPACE],
    and the two spaces above 127 that are mapped to a blank first. *)
Definition isspace_num (c : ascii) : bool :=
  let n := N_of_ascii c in
  (((9 <=? n) && (n <=? 13)) || (n =? 32) || (n =? 133) || (n =? 160))%N.

Definition is_underscore (c : ascii) : bool := (N_of_ascii c =? 95)%N.

Definition prev_is (p : ascii -> bool) (prev : option ascii) : bool :=
  match prev with
  | Some c => p c
  | None => false
  end.

(** Underscores are accepted between two digits only, and dropped. *)
Fixpoint drop_underscores (prev : option ascii) (s : string) : option string :=
  match s with
  | EmptyString => if prev_is is_underscore prev then None else Some EmptyString
  | String c r =>
      if is_underscore c then
        if prev_is isdigit prev then drop_underscores (Some c) r else None
      else if prev_is is_underscore prev && negb (isdigit c) then None
      else option_map (String c) (drop_underscores (Some c) r)
  end.

(** Reads a run of decimal digits: its value after [acc], how many digits
    were read, and the rest of the text. *)
Fixpoint read_digits (acc : Z) (count : Z) (s : string) : Z * Z * string :=
  match s with
  | String c r =>
      if isdigit c
      then read_digits (10 * acc + Z.of_N (N_of_ascii c - 48)) (count + 1) r
      else (acc, count, s)
  | EmptyString => (acc, count, s)
  end.

(** An optional sign; [true] for [-]. *)
Definition read_sign (s : string) : bool * string :=
  match s with
  | String "-" r => (true, r)
  | String "+" r => (false, r)
  | _ => (false, s)
  end.

(** The binary64 value nearest to [d * 10^e] (ties to even), for [d >= 0]. *)
Definition nearest_float (d e : Z) : float :=
  if d =? 0 then 0%float
  else if 400 <? e then infinity
  else if 0 <=? e then SF2Prim (binary_normalize 53 1024 (d * 10 ^ e) 0 false)
  else
    SF2Prim (SFdiv 53 1024 (S754_finite false (Z.to_pos d) 0)
                           (S754_finite false (Z.to_pos (10 ^ (- e))) 0)).

Definition signed (neg : bool) (x : float) : float :=
  if neg then (- x)%float else x.

(** The exponent part: nothing, or [e], an optional sign and digits. *)
Definition read_exponent (s : string) : option Z :=
  match s with
  | EmptyString => Some 0
  | String c r =>
      if (N_of_ascii (lower_char c) =? 101)%N then
        let (neg, r1) := read_sign r in
        match read_digits 0 0 r1 with
        | (x, n, EmptyString) =>
            if 0 <? n then Some (if neg then - x else x) else None
        | _ => None
        end
      else None
  end.

(** A decimal numeral: digits with an optional point, at least one digit,
    then an optional exponent. *)
Definition read_decimal (s : string) : option (Z * Z) :=
  let '(i, ni, r1) := read_digits 0 0 s in
  let '(d, nf, r2) :=
    match r1 with
    | String "." r => read_digits i 0 r
    | _ => (i, 0, r1)
    end in
  if 0 <? ni + nf then
    match read_exponent r2 with
    | Some x =>
        (* fewer than 10^-400: the value is below half the least float *)
        if ni + nf + (x - nf) <? -400 then Some (0, 0) else Some (d, x - nf)
    | None => None
    end
  else None.

(** [float(s)] for a [str]: [None] stands for [ValueError]. *)
Definition py_float (s : string) : option float :=
  match drop_underscores None s with
  | None => None
  | Some s1 =>
      let (neg, body) := read_sign (strip_with isspace_num s1) in
      let word := lower body in
      if ((word =? "inf") || (word =? "infinity"))%string then Some (signed neg infinity)
      else if (word =? "nan")%string then Some nan
      else
        match read_decimal body with
        | Some (d, e) => Some (signed neg (nearest_float d e))
        | None => None
        end
  end.

(** [int(s)] for a [str], base 10: [None] stands for [ValueError]. *)
Definition py_int (s : string) : option Z :=
  match drop_underscores None s with
  | None => None
  | Some s1 =>
      let (neg, body) := read_sign (strip_with isspace_num s1) in
      match read_digits 0 0 body with
      | (x, n, EmptyString) =>
          if 0 <? n then Some (if neg then - x else x) else None
      | _ => None
      end
  end.

(** [str(n)] for an [int]. *)
Definition str_of_int (n : Z) : string := NilZero.string_of_int (Z.to_int n).

End Num.

(** ** [hashlib.sha256] and [hmac.new(key, msg, hashlib.sha256)] *)

Module Digest.

Local Open Scope Z_scope.
Local Open Scope list_scope.

Definition w32 (x : Z) : Z := x mod 2 ^ 32.

Definition rotr (n x : Z) : Z :=
  Z.lor (Z.shiftr x n) (w32 (Z.shiftl x (32 - n))).

Definition not32 (x : Z) : Z := Z.lxor x 0xffffffff.

Definition Ch (x y z : Z) : Z := Z.lxor (Z.land x y) (Z.land (not32 x) z).
Definition Maj (x y z : Z) : Z :=
  Z.lxor (Z.lxor (Z.land x y) (Z.land x z)) (Z.land y z).
Definition Sigma0 (x : Z) : Z := Z.lxor (Z.lxor (rotr 2 x) (rotr 13 x)) (rotr 22 x).
Definition Sigma1 (x : Z) : Z := Z.lxor (Z.lxor (rotr 6 x) (rotr 11 x)) (rotr 25 x).
Definition sigma0 (x : Z) : Z := Z.lxor (Z.lxor (rotr 7 x) (rotr 18 x)) (Z.shiftr x 3).
Definition sigma1 (x : Z) : Z := Z.lxor (Z.lxor (rotr 17 x) (rotr 19 x)) (Z.shiftr x 10).

(** The constants of FIPS 180-4 are fractional parts of roots of the first
    primes: the first 32 bits of the cube roots of the first 64 primes for
    [K], and of the square roots of the first 8 for [H0]. *)
Definition is_prime (n : nat) : bool :=
  forallb (fun d => negb (Nat.eqb (Nat.modulo n d) 0)) (seq 2 (n - 2)).

Definition primes : list Z := map Z.of_nat (filter is_prime (seq 2 310)).

(** The largest [r] below [2 ^ bits] with [r ^ 3 <= x], bit by bit. *)
Fixpoint cube_root (bits : nat) (x r : Z) : Z :=
  match bits with
  | O => r
  | S b =>
      let r' := r + 2 ^ Z.of_nat b in
      cube_root b x (if r' * r' * r' <=? x then r' else r)
  end.

Definition K : list Z :=
  map (fun p => w32 (cube_root 35 (p * 2 ^ 96) 0)) primes.

Definition H0 : list Z :=
  map (fun p => w32 (Z.sqrt (p * 2 ^ 64))) (firstn 8 primes).

Definition byte_val (b : byte) : Z := Z.of_N (Byte.to_N b).

Definition byte_of_val (x : Z) : byte :=
  match Byte.of_N (Z.to_N (x mod 256)) with
  | Some b => b
  | None => x00
  end.

(** The [n] low bytes of [x], most significant first. *)
Fixpoint be_bytes (n : nat) (x : Z) : list byte :=
  match n with
  | O => []
  | S m => be_bytes m (Z.shiftr x 8) ++ [byte_of_val x]
  end.

(** The message followed by the bit 1, zeros up to 56 modulo 64 bytes, and
    the length in bits on 8 bytes. *)
Definition pad (msg : list byte) : list byte :=
  let len := Z.of_nat (List.length msg) in
  let zeros := Z.to_nat ((55 - len) mod 64) in
  msg ++ [x80] ++ repeat x00 zeros ++ be_bytes 8 (8 * len).

(** Big-endian 32-bit words of a byte sequence (a multiple of 4 long). *)
Fixpoint words_of (bs : list byte) : list Z :=
  match bs with
  | a :: b :: c :: d :: r =>
      (byte_val a * 2 ^ 24 + byte_val b * 2 ^ 16 + byte_val c * 2 ^ 8 + byte_val d)
      :: words_of r
  | _ => []
  end.

(** The message schedule, most recent word first: [rev_w] holds
    [W(t-1); W(t-2); ...]. *)
Fixpoint schedule (n : nat) (rev_w : list Z) : list Z :=
  match n with
  | O => rev_w
  | S m =>
      let w := w32 (sigma1 (nth 1 rev_w 0) + nth 6 rev_w 0
                    + sigma0 (nth 14 rev_w 0) + nth 15 rev_w 0) in
      schedule m (w :: rev_w)
  end.

Definition round (s : list Z) (kw : Z * Z) : list Z :=
  match s with
  | [a; b; c; d; e; f; g; h] =>
      let t1 := h + Sigma1 e + Ch e f g + fst kw + snd kw in
      let t2 := Sigma0 a + Maj a b c in
      [w32 (t1 + t2); a; b; c; w32 (d + t1); e; f; g]
  | _ => s
  end.

Definition add_words (x y : list Z) : list Z :=
  map (fun p => w32 (fst p + snd p)) (combine x y).

Definition compress (h : list Z) (block : list Z) : list Z :=
  let w := rev (schedule 48 (rev block)) in
  add_words h (fold_left round (combine K w) h).

(** The 16-word blocks of a word sequence; [n] bounds their number. *)
Fixpoint blocks (n : nat) (ws : list Z) : list (list Z) :=
  match n, ws with
  | S m, _ :: _ => firstn 16 ws :: blocks m (skipn 16 ws)
  | _, _ => []
  end.

Definition sha256 (msg : list byte) : list byte :=
  let ws := words_of (pad msg) in
  let h := fold_left compress (blocks (List.length ws) ws) H0 in
  flat_map (be_bytes 4) h.

Definition xor_pad (p : Z) (key : list byte) : list byte :=
  map (fun b => byte_of_val (Z.lxor (byte_val b) p)) key.

(** [hmac.new(key, msg, hashlib.sha256).digest()] *)
Definition hmac_sha256 (key msg : list byte) : list byte :=
  let k0 := if (64 <? List.length key)%nat then sha256 key else key in
  let k := k0 ++ repeat x00 (64 - List.length k0) in
  sha256 (xor_pad 0x5c k ++ sha256 (xor_pad 0x36 k ++ msg)).

Definition hex_digit (n : N) : ascii :=
  if (n <? 10)%N then ascii_of_N (48 + n) else ascii_of_N (87 + n).

(** [bytes.hex()]: two lower-case hexadecimal digits per byte. *)
Fixpoint hex (bs : list byte) : string :=
  match bs with
  | [] => EmptyString
  | b :: r =>
      let n := Byte.to_N b in
      String (hex_digit (n / 16)) (String (hex_digit (n mod 16)) (hex r))
  end.

(** [hmac.new(key, msg, hashlib.sha256).hexdigest()] *)
Definition hmac_hexdigest (key msg : list byte) : string :=
  hex (hmac_sha256 key msg).

End Digest.

(** ** Dictionaries that keep insertion order *)

Section Dict.

Context {K V : Type} (eqb : K -> K -> bool).

(** [d.get(k)] *)
Fixpoint dict_get (k : K) (d : list (K * V)) : option V :=
  match d with
  | [] => None
  | (k', v) :: r => if eqb k k' then Some v else dict_get k r
  end.

(** [d[k] = v]: the value of an existing key is replaced where it stands, a
    new key goes last. *)
Fixpoint dict_set (k : K) (v : V) (d : list (K * V)) : list (K * V) :=
  match d with
  | [] => [(k, v)]
  | (k', v') :: r => if eqb k k' then (k', v) :: r else (k', v') :: dict_set k v r
  end.

(** [d.pop(k)], for a key that is present. *)
Fixpoint dict_pop (k : K) (d : list (K * V)) : list (K * V) :=
  match d with
  | [] => []
  | (k', v') :: r => if eqb k k' then r else (k', v') :: dict_pop k r
  end.

Definition keys (d : list (K * V)) : list K := map fst d.

End Dict.

(** ** The data of the bot *)

Import Text.

(** A value of [presets]: [{"order_size": ..., "min_profit_pct": ...}]. *)
Record Preset : Type := {
  order_size : float;
  min_profit_pct : float
}.

(** The ["step"] of a dialogue: ["ticker"], ["size"], and ["profit"] (the
    [else] branch of line 97). *)
Inductive Step : Type := StepTicker | StepSize | StepProfit.

(** A value of [user_states]: [{"step": ...}] with the keys ["ticker"] and
    ["order_size"] once they are entered. *)
Record Session : Type := {
  s_step : Step;
  s_ticker : option ustring;
  s_order_size : option float
}.

(** The module-level state: [webhook_secret], [presets], [user_states]. *)
Record State : Type := {
  webhook_secret : string;
  presets : list (ustring * Preset);
  user_states : list (Z * Session)
}.

Record Settings : Type := {
  TELEGRAM_CHAT_ID : string
}.

(** The texts [notify] sends, with the values their f-strings print. *)
Inductive Message : Type :=
| SecretUpdated
| CurrentSecret (secret : string)
| Usage
| PresetSaved (ticker : ustring) (size profit : float)
| EnterTicker
| EnterSize
| NumberOnly
| EnterProfit
| Saved (ticker : ustring) (size profit : float)
| NoPresets
| PresetLines (lines : list (ustring * float * float))
| Help
| NoPresetFor (ticker : ustring)
| BuyPlaced (ticker : ustring) (qty price : float)
| InsufficientFunds
| SellPlaced (ticker : ustring) (pnl : float)
| SkipSellNotice (ticker : ustring) (pnl : float).

Inductive Side : Type := BUY | SELL.

(** What a handler did to the outside: a message delivered to a chat, a
    limit order handed to the gateway. *)
Inductive Event : Type :=
| Sent (chat_id : Z) (m : Message)
| Order (symbol : ustring) (side : Side) (qty price : float).

(** What [ib.position(contract)] returns when it holds something. *)
Record Position : Type := {
  position : float;
  avgCost : float
}.

Record AccountValue : Type := {
  tag : string;
  value : string
}.

(** A decoded JSON document, as [json.loads] returns it. *)
#[local] Unset Elimination Schemes.
Inductive json : Type :=
| JNull
| JBool (b : bool)
| JInt (n : Z)
| JFloat (x : float)
| JStr (s : string)
| JList (l : list json)
| JDict (d : list (string * json)).
#[local] Set Elimination Schemes.

(** The answers of the collaborators, each of which may raise: Telegram's
    [send_message], the gateway calls of [webhook], and [json.loads]. *)
Record Collaborators : Type := {
  send_message : Z -> Message -> pyresult unit;
  json_loads : list byte -> pyresult json;
  qualifyContracts : ustring -> pyresult unit;
  reqMktData_last : ustring -> pyresult float;
  accountValues : pyresult (list AccountValue);
  ib_position : ustring -> pyresult (option Position);
  ib_pnl_unrealizedPNL : ustring -> pyresult float;
  placeOrder : ustring -> Side -> float -> float -> pyresult unit
}.

(** The body of a [/telegram] request after [get_json], in the shape of a
    Telegram update: the integer of [message.chat.id], and [message.text]
    when the message has a text (line 48 defaults it to the empty text). A
    body of another shape is outside the embedding. *)
Record Update : Type := {
  chat_id : Z;
  text : option string
}.

(** A [/webhook] request: its raw body and its [X-Signature] header. *)
Record WebhookRequest : Type := {
  payload : list byte;
  x_signature : option string
}.

(** ** Handlers: state, effects and exceptions *)

Record Outcome (A : Type) : Type := {
  result : pyresult A;
  final : State;
  effects : list Event
}.
Arguments result {A} o.
Arguments final {A} o.
Arguments effects {A} o.

Definition M (A : Type) : Type := State -> Outcome A.

Definition ret {A} (a : A) : M A :=
  fun s => {| result := Ok a; final := s; effects := [] |}.

Definition raise {A} (e : exn) : M A :=
  fun s => {| result := Raise e; final := s; effects := [] |}.

Definition bind {A B} (c : M A) (k : A -> M B) : M B :=
  fun s =>
    match c s with
    | {| result := Ok a; final := s1; effects := e1 |} =>
        match k a s1 with
        | {| result := r; final := s2; effects := e2 |} =>
            {| result := r; final := s2; effects := e1 ++ e2 |}
        end
    | {| result := Raise e; final := s1; effects := e1 |} =>
        {| result := Raise e; final := s1; effects := e1 |}
    end.

Definition lift {A} (r : pyresult A) : M A :=
  fun s => {| result := r; final := s; effects := [] |}.

Definition gets {A} (f : State -> A) : M A :=
  fun s => {| result := Ok (f s); final := s; effects := [] |}.

Definition modify (f : State -> State) : M unit :=
  fun s => {| result := Ok tt; final := f s; effects := [] |}.

Definition emit (e : Event) : M unit :=
  fun s => {| result := Ok tt; final := s; effects := [e] |}.

(** The outcome [o] of a continuation, after the effects [es]. *)
Definition after {A} (es : list Event) (o : Outcome A) : Outcome A :=
  {| result := result o; final := final o; effects := es ++ effects o |}.

Declare Scope handler_scope.
Delimit Scope handler_scope with handler.
Notation "x <- c ;; k" := (bind c (fun x => k))
  (at level 61, c at next level, right associativity) : handler_scope.
Notation "c ;; k" := (bind c (fun _ => k))
  (at level 61, right associativity) : handler_scope.
Local Open Scope handler_scope.

(** The status Flask answers with: the handler's own, the code of an
    [abort], or 500 for any other exception. *)
Definition response (o : Outcome Z) : Z :=
  match result o with
  | Ok code => code
  | Raise (HTTPException code) => code
  | Raise _ => 500
  end.

Definition set_webhook_secret (secret : string) : M unit :=
  modify (fun s => {| webhook_secret := secret;
                      presets := presets s;
                      user_states := user_states s |}).

Definition set_preset (ticker : ustring) (p : Preset) : M unit :=
  modify (fun s => {| webhook_secret := webhook_secret s;
                      presets := dict_set ustring_eqb ticker p (presets s);
                      user_states := user_states s |}).

Definition set_session (chat : Z) (x : Session) : M unit :=
  modify (fun s => {| webhook_secret := webhook_secret s;
                      presets := presets s;
                      user_states := dict_set Z.eqb chat x (user_states s) |}).

Definition pop_session (chat : Z) : M unit :=
  modify (fun s => {| webhook_secret := webhook_secret s;
                      presets := presets s;
                      user_states := dict_pop Z.eqb chat (user_states s) |}).

(** ** The two tests of the trade block (lines 144-145 and 152) *)

Import Text Num.

(** The outcomes of the two tests of lines 145 and 152. [SkipSell pnl] is the
    one [else] of line 155, which reports the P/L whatever made the sale
    fail. *)
Inductive DecisionResult : Type :=
| PlaceBuy (qty price : float)
| PlaceSell (qty price : float)
| SkipInsufficientFunds
| SkipSell (pnl : float).

(** Lines 144-148. *)
Definition decide_buy (cfg : Preset) (price cash : float) : pyresult DecisionResult :=
  (let? qty := py_div (order_size cfg) price in
   if py_ge cash (order_size cfg)
   then Ok (PlaceBuy qty price)
   else Ok SkipInsufficientFunds)%py.

(** Lines 152-155: [pos and pos.position>0 and
    pnl/(pos.avgCost*pos.position)>=cfg["min_profit_pct"]]. *)
Definition decide_sell (cfg : Preset) (price : float) (pos : option Position)
    (pnl : float) : pyresult DecisionResult :=
  match pos with
  | None => Ok (SkipSell pnl)
  | Some q =>
      if py_gt (position q) 0 then
        (let? ratio := py_div pnl (avgCost q * position q)%float in
         if py_ge ratio (min_profit_pct cfg)
         then Ok (PlaceSell (position q) price)
         else Ok (SkipSell pnl))%py
      else Ok (SkipSell pnl)
  end.

(** ** Webhook authentication (lines 125-128) *)

(** [hmac.compare_digest(a, b)] on two [str]: both must be ASCII. *)
Definition compare_digest (a b : string) : pyresult bool :=
  if isascii a && isascii b then Ok (a =? b)%string else Raise TypeError.

Definition expected_signature (secret : string) (body : list byte) : string :=
  Digest.hmac_hexdigest (encode secret) body.

Definition verify (secret : string) (body : list byte) (sig : string) : pyresult bool :=
  compare_digest sig (expected_signature secret body).

(** Line 126: the [X-Signature] header, empty when the request has none. *)
Definition signature_of (req : WebhookRequest) : string :=
  match x_signature req with
  | Some s => s
  | None => EmptyString
  end.

(** Line 48: the text of the message, empty when it has none, stripped. *)
Definition text_of (u : Update) : string :=
  strip (match text u with
         | Some t => t
         | None => EmptyString
         end).

(** ** The two handlers *)

Section Handlers.

Variable settings : Settings.
Variable ext : Collaborators.

(** [notify(chat_id, text)]: [tg.send_message]. *)
Definition notify (chat : Z) (m : Message) : M unit :=
  lift (send_message ext chat m) ;; emit (Sent chat m).

(** [notify(int(settings.TELEGRAM_CHAT_ID), ...)] of [webhook]. *)
Definition notify_operator (m : Message) : M unit :=
  chat <- lift (of_option ValueError (py_int (TELEGRAM_CHAT_ID settings))) ;;
  notify chat m.

(** [ib.placeOrder(contract, LimitOrder(side, qty, price))] *)
Definition place_order (symbol : ustring) (side : Side) (qty price : float) : M unit :=
  lift (placeOrder ext symbol side qty price) ;; emit (Order symbol side qty price).

(** *** [telegram_config] (lines 44-120) *)

(** Lines 65-77, [/set TICKER SIZE PROFIT]: [Some status] when the block
    returns, [None] when control falls through to line 80. *)
Definition set_command (chat : Z) (txt : string) : M (option Z) :=
  if startswith "/set " (lower txt) then
    match split txt with
    | [_; ticker; size; profit] =>
        match py_float size, py_float profit with
        | Some size, Some profit =>
            set_preset (upper ticker)
              {| order_size := size; min_profit_pct := (profit / 100)%float |} ;;
            notify chat (PresetSaved (upper ticker) size profit) ;;
            ret (Some 200)
        | _, _ => notify chat Usage ;; ret (Some 200)
        end
    | _ => ret None
    end
  else ret None.

(** Lines 80-105, the interactive [/set]: [None] when neither [if] of
    lines 81 and 85 is taken. *)
Definition dialogue (chat : Z) (txt : string) : M (option Z) :=
  state <- gets (fun s => dict_get Z.eqb chat (user_states s)) ;;
  match state with
  | None =>
      if (lower txt =? "/set")%string then
        set_session chat
          {| s_step := StepTicker; s_ticker := None; s_order_size := None |} ;;
        notify chat EnterTicker ;;
        ret (Some 200)
      else ret None
  | Some st =>
      match s_step st with
      | StepTicker =>
          set_session chat
            {| s_step := StepSize; s_ticker := Some (upper txt);
               s_order_size := s_order_size st |} ;;
          notify chat EnterSize ;;
          ret (Some 200)
      | StepSize =>
          match py_float txt with
          | Some size =>
              set_session chat
                {| s_step := StepProfit; s_ticker := s_ticker st;
                   s_order_size := Some size |} ;;
              notify chat EnterProfit ;;
              ret (Some 200)
          | None => notify chat NumberOnly ;; ret (Some 200)
          end
      | StepProfit =>
          match py_float txt with
          | Some profit =>
              size <- lift (of_option KeyError (s_order_size st)) ;;
              ticker <- lift (of_option KeyError (s_ticker st)) ;;
              set_preset ticker
                {| order_size := size; min_profit_pct := (profit / 100)%float |} ;;
              notify chat (Saved ticker size profit) ;;
              pop_session chat ;;
              ret (Some 200)
          | None => notify chat NumberOnly ;; ret (Some 200)
          end
      end
  end.

(** Lines 108-120: [/show], and the help text for anything else. *)
Definition show_or_help (chat : Z) (txt : string) : M Z :=
  if (lower txt =? "/show")%string then
    ps <- gets presets ;;
    match ps with
    | [] => notify chat NoPresets
    | _ =>
        notify chat
          (PresetLines
             (map (fun tv => (fst tv, order_size (snd tv),
                              (min_profit_pct (snd tv) * 100)%float)) ps))
    end ;;
    ret 200
  else notify chat Help ;; ret 200.

Definition telegram_config (u : Update) : M Z :=
  let txt := text_of u in
  let chat := chat_id u in
  if negb (str_of_int chat =? TELEGRAM_CHAT_ID settings)%string then ret 403
  else if startswith "/setsecret " (lower txt) then
    secret <- lift (of_option IndexError (nth_error (split_maxsplit1 txt) 1)) ;;
    set_webhook_secret secret ;;
    notify chat SecretUpdated ;;
    ret 200
  else if (lower txt =? "/getsecret")%string then
    secret <- gets webhook_secret ;;
    notify chat (CurrentSecret secret) ;;
    ret 200
  else
    r <- set_command chat txt ;;
    match r with
    | Some status => ret status
    | None =>
        r' <- dialogue chat txt ;;
        match r' with
        | Some status => ret status
        | None => show_or_help chat txt
        end
    end.

(** *** [webhook] (lines 124-157) *)

(** Lines 131-132 are meant as two assignments, of [ticker] and of [signal],
    each from [data.get(key, default).upper()] with an empty default. Both
    are written with three double quotes where the empty string (two) was
    meant. Python reads three double quotes as the start of a triple-quoted
    string, which runs to the next three, on line 132: the two lines are one
    assignment to [ticker], whose default is the text between the quotes, and
    the name [signal] is bound nowhere, in [webhook], at module level or
    among the built-ins. *)
Definition ticker_default : string :=
  ").upper()" ++ newline ++ "    signal = data.get(" ++ quote ++ "signal" ++ quote ++ ",".

(** The value of the name [signal] at line 142. *)
Definition signal_binding : pyresult string := Raise NameError.

(** [data.get(key, default)]: only a [dict] has the method. *)
Definition json_get (data : json) (key : string) (default : json) : pyresult json :=
  match data with
  | JDict d =>
      Ok (match dict_get String.eqb key d with
          | Some v => v
          | None => default
          end)
  | _ => Raise AttributeError
  end.

(** [v.upper()]: only a [str] has the method. *)
Definition json_upper (v : json) : pyresult ustring :=
  match v with
  | JStr s => Ok (upper s)
  | _ => Raise AttributeError
  end.

(** Line 143: [float(next(a.value for a in ib.accountValues() if
    a.tag=="AvailableFunds"))]. *)
Definition available_funds (avs : list AccountValue) : pyresult float :=
  match find (fun a => (tag a =? "AvailableFunds")%string) avs with
  | Some a => of_option ValueError (py_float (value a))
  | None => Raise StopIteration
  end.

(** Lines 142-155 for a bound [signal]: the reads from the gateway, the
    decision, then the order and the notification. *)
Definition trade (signal : string) (cfg : Preset) (ticker : ustring) (price : float)
    : M unit :=
  if (signal =? "BUY")%string then
    avs <- lift (accountValues ext) ;;
    cash <- lift (available_funds avs) ;;
    d <- lift (decide_buy cfg price cash) ;;
    match d with
    | PlaceBuy qty price' =>
        place_order ticker BUY qty price' ;;
        notify_operator (BuyPlaced ticker qty price')
    | _ => notify_operator InsufficientFunds
    end
  else
    pos <- lift (ib_position ext ticker) ;;
    pnl <- lift (ib_pnl_unrealizedPNL ext ticker) ;;
    d <- lift (decide_sell cfg price pos pnl) ;;
    match d with
    | PlaceSell qty price' =>
        place_order ticker SELL qty price' ;;
        notify_operator (SellPlaced ticker pnl)
    | _ => notify_operator (SkipSellNotice ticker pnl)
    end.

Definition webhook (req : WebhookRequest) : M Z :=
  secret <- gets webhook_secret ;;
  valid <- lift (verify secret (payload req) (signature_of req)) ;;
  if negb valid then raise (HTTPException 403)
  else
    data <- lift (json_loads ext (payload req)) ;;
    t <- lift (json_get data "ticker" (JStr ticker_default)) ;;
    ticker <- lift (json_upper t) ;;
    cfg <- gets (fun s => dict_get ustring_eqb ticker (presets s)) ;;
    match cfg with
    | None => notify_operator (NoPresetFor ticker) ;; ret 200
    | Some c =>
        lift (qualifyContracts ext ticker) ;;
        price <- lift (reqMktData_last ext ticker) ;;
        signal <- lift signal_binding ;;
        trade signal c ticker price ;;
        ret 200
    end.

End Handlers.

(** ** Derived notions used by the statements *)

(** The guards of lines 54, 60 and 65-67 all fail: [telegram_config] reaches
    the dialogue of line 80 with the text [txt]. *)
Definition reaches_dialogue (txt : string) : bool :=
  negb (startswith "/setsecret " (lower txt))
  && negb (lower txt =? "/getsecret")%string
  && negb (startswith "/set " (lower txt) && (List.length (split txt) =? 4)%nat).

(** A text message of the chat [chat]. *)
Definition message (chat : Z) (t : string) : Update :=
  {| chat_id := chat; text := Some t |}.

(** The state after a sequence of [/telegram] requests. *)
Fixpoint run_updates (settings : Settings) (ext : Collaborators)
    (us : list Update) (st : State) : State :=
  match us with
  | [] => st
  | u :: r => run_updates settings ext r (final (telegram_config settings ext u st))
  end.

(** The outcome of a handler that ends, from the state [s], with one
    notification and the status 200. *)
Definition notified (ext : Collaborators) (chat : Z) (m : Message) (s : State)
    : Outcome Z :=
  match send_message ext chat m with
  | Ok _ => {| result := Ok 200; final := s; effects := [Sent chat m] |}
  | Raise e => {| result := Raise e; final := s; effects := [] |}
  end.

(** A computation that leaves [presets] as it finds it. *)
Definition frame {A} (c : M A) : Prop :=
  forall s, presets (final (c s)) = presets s.

(** A computation that assigns to at most one key of [presets]. *)
Definition writes_once {A} (c : M A) : Prop :=
  forall s,
    presets (final (c s)) = presets s
    \/ exists t p, presets (final (c s)) = dict_set ustring_eqb t p (presets s).

(** A computation that leaves the whole state as it finds it. *)
Definition readonly {A} (c : M A) : Prop :=
  forall s, final (c s) = s.

(** A session holds what the steps before its own have stored: a ticker
    once the size is awaited, a ticker and a size once the profit is. *)
Definition session_wf (x : Session) : Prop :=
  match s_step x with
  | StepTicker => True
  | StepSize => s_ticker x <> None
  | StepProfit => s_ticker x <> None /\ s_order_size x <> None
  end.

Definition sessions_wf (st : State) : Prop :=
  Forall (fun kv => session_wf (snd kv)) (user_states st).

(** The orders among the effects of a request. *)
Definition is_order (e : Event) : bool :=
  match e with
  | Order _ _ _ _ => true
  | Sent _ _ => false
  end.

(** A computation none of whose effects is an order. *)
Definition orderless {A} (c : M A) : Prop :=
  forall s, filter is_order (effects (c s)) = [].

(** The value [read_digits] gives to a decimal numeral, from [acc]. *)
Fixpoint uint_val (acc : Z) (d : Decimal.uint) : Z :=
  match d with
  | Decimal.Nil => acc
  | Decimal.D0 l => uint_val (10 * acc + 0) l
  | Decimal.D1 l => uint_val (10 * acc + 1) l
  | Decimal.D2 l => uint_val (10 * acc + 2) l
  | Decimal.D3 l => uint_val (10 * acc + 3) l
  | Decimal.D4 l => uint_val (10 * acc + 4) l
  | Decimal.D5 l => uint_val (10 * acc + 5) l
  | Decimal.D6 l => uint_val (10 * acc + 6) l
  | Decimal.D7 l => uint_val (10 * acc + 7) l
  | Decimal.D8 l => uint_val (10 * acc + 8) l
  | Decimal.D9 l => uint_val (10 * acc + 9) l
  end.

(** A status of the 4xx class. *)
Definition client_error (status : Z) : bool :=
  ((400 <=? status) && (status <? 500))%Z.

(** ** Sample data for the concrete runs *)

Module Sample.

Definition settings : Settings := {| TELEGRAM_CHAT_ID := "42" |}.

Definition msft_body : list byte :=
  encode ("{" ++ quote ++ "ticker" ++ quote ++ ": " ++ quote ++ "msft" ++ quote ++ "}").

(** The alert for msft with the signal [sig]. *)
Definition alert_body (sig : string) : list byte :=
  encode ("{" ++ quote ++ "ticker" ++ quote ++ ": " ++ quote ++ "msft" ++ quote ++ ", "
          ++ quote ++ "signal" ++ quote ++ ": " ++ quote ++ sig ++ quote ++ "}").

Definition buy_body : list byte := alert_body "BUY".
Definition sell_body : list byte := alert_body "SELL".

(** [json.loads] on the bodies the runs use: the object naming msft, the
    alerts to buy and to sell msft, the empty array, and texts that are no
    JSON, which is what anything else is taken to be. *)
Definition loads (b : list byte) : pyresult json :=
  let s := string_of_list_byte b in
  if (s =? string_of_list_byte msft_body)%string then Ok (JDict [("ticker", JStr "msft")])
  else if (s =? string_of_list_byte buy_body)%string
  then Ok (JDict [("ticker", JStr "msft"); ("signal", JStr "BUY")])
  else if (s =? string_of_list_byte sell_body)%string
  then Ok (JDict [("ticker", JStr "msft"); ("signal", JStr "SELL")])
  else if (s =? "[]")%string then Ok (JList [])
  else Raise JSONDecodeError.

(** Collaborators that all answer: last price 100, 1000 of available funds,
    no position. *)
Definition ext : Collaborators := {|
  send_message := fun _ _ => Ok tt;
  json_loads := loads;
  qualifyContracts := fun _ => Ok tt;
  reqMktData_last := fun _ => Ok 100%float;
  accountValues := Ok [ {| tag := "AvailableFunds"; value := "1000" |} ];
  ib_position := fun _ => Ok None;
  ib_pnl_unrealizedPNL := fun _ => Ok 0%float;
  placeOrder := fun _ _ _ _ => Ok tt
|}.

(** The same, with Telegram unreachable. *)
Definition ext_telegram_down : Collaborators := {|
  send_message := fun _ _ => Raise DownstreamError;
  json_loads := loads;
  qualifyContracts := fun _ => Ok tt;
  reqMktData_last := fun _ => Ok 100%float;
  accountValues := Ok [ {| tag := "AvailableFunds"; value := "1000" |} ];
  ib_position := fun _ => Ok None;
  ib_pnl_unrealizedPNL := fun _ => Ok 0%float;
  placeOrder := fun _ _ _ _ => Ok tt
|}.

(** The same as [ext], holding 10 shares bought at 50 each, with an
    unrealised profit of 100. *)
Definition ext_holding : Collaborators := {|
  send_message := fun _ _ => Ok tt;
  json_loads := loads;
  qualifyContracts := fun _ => Ok tt;
  reqMktData_last := fun _ => Ok 100%float;
  accountValues := Ok [ {| tag := "AvailableFunds"; value := "1000" |} ];
  ib_position := fun _ => Ok (Some {| position := 10; avgCost := 50 |});
  ib_pnl_unrealizedPNL := fun _ => Ok 100%float;
  placeOrder := fun _ _ _ _ => Ok tt
|}.

(** The same as [ext], holding 10 shares at an average cost of zero, with an
    unrealised profit of 100. *)
Definition ext_zero_basis : Collaborators := {|
  send_message := fun _ _ => Ok tt;
  json_loads := loads;
  qualifyContracts := fun _ => Ok tt;
  reqMktData_last := fun _ => Ok 100%float;
  accountValues := Ok [ {| tag := "AvailableFunds"; value := "1000" |} ];
  ib_position := fun _ => Ok (Some {| position := 10; avgCost := 0 |});
  ib_pnl_unrealizedPNL := fun _ => Ok 100%float;
  placeOrder := fun _ _ _ _ => Ok tt
|}.

(** The same as [ext], with Telegram refusing the confirmation of a saved
    preset (line 103) and nothing else. *)
Definition ext_confirmation_lost : Collaborators := {|
  send_message := fun _ m =>
    match m with
    | Saved _ _ _ => Raise DownstreamError
    | _ => Ok tt
    end;
  json_loads := loads;
  qualifyContracts := fun _ => Ok tt;
  reqMktData_last := fun _ => Ok 100%float;
  accountValues := Ok [ {| tag := "AvailableFunds"; value := "1000" |} ];
  ib_position := fun _ => Ok None;
  ib_pnl_unrealizedPNL := fun _ => Ok 0%float;
  placeOrder := fun _ _ _ _ => Ok tt
|}.

(** The text of a street name with a sharp s (U+00DF). *)
Definition strasse : string := "stra" ++ String "223"%char "e".

Definition empty : State :=
  {| webhook_secret := "s3cret"; presets := []; user_states := [] |}.

(** A session that has just been opened by [/set]. *)
Definition awaiting_ticker : State :=
  {| webhook_secret := "s3cret"; presets := [];
     user_states := [(42, {| s_step := StepTicker; s_ticker := None;
                             s_order_size := None |})] |}.

(** A session that has its ticker and waits for the size. *)
Definition awaiting_size : State :=
  {| webhook_secret := "s3cret"; presets := [];
     user_states := [(42, {| s_step := StepSize; s_ticker := Some (ustr "TSLA");
                             s_order_size := None |})] |}.

Definition aapl : Preset := {| order_size := 500; min_profit_pct := 0.1 |}.

(** A registry with a preset for MSFT. *)
Definition msft_registered : State :=
  {| webhook_secret := "s3cret"; presets := [(ustr "MSFT", aapl)]; user_states := [] |}.

Definition signed_request (secret : string) (body : list byte) : WebhookRequest :=
  {| payload := body; x_signature := Some (expected_signature secret body) |}.

End Sample.

(** * Properties *)

(** ** Dictionaries *)

Section DictFacts.

Context {K V : Type} (eqb : K -> K -> bool).
Hypothesis eqb_spec : forall a b, eqb a b = true <-> a = b.

Lemma eqb_refl_of_spec (k : K) : eqb k k = true.
Proof. now apply eqb_spec. Qed.

Lemma eqb_false_of_neq (a b : K) : a <> b -> eqb a b = false.
Proof.
  intros Hne. destruct (eqb a b) eqn:E; [| reflexivity].
  apply eqb_spec in E. contradiction.
Qed.

Lemma dict_get_set_same (k : K) (v : V) (d : list (K * V)) :
  dict_get eqb k (dict_set eqb k v d) = Some v.
Proof.
  induction d as [| [k' v'] r IH]; simpl.
  - now rewrite eqb_refl_of_spec.
  - destruct (eqb k k') eqn:E; simpl; rewrite E; [reflexivity | exact IH].
Qed.

Lemma dict_get_set_other (k k0 : K) (v : V) (d : list (K * V)) :
  k0 <> k -> dict_get eqb k0 (dict_set eqb k v d) = dict_get eqb k0 d.
Proof.
  intros Hne. induction d as [| [k' v'] r IH]; simpl.
  - now rewrite (eqb_false_of_neq _ _ Hne).
  - destruct (eqb k k') eqn:E; simpl.
    + apply eqb_spec in E. subst k'.
      now rewrite (eqb_false_of_neq _ _ Hne).
    + now rewrite IH.
Qed.

Lemma keys_dict_set_present (k : K) (v v0 : V) (d : list (K * V)) :
  dict_get eqb k d = Some v0 -> keys (dict_set eqb k v d) = keys d.
Proof.
  unfold keys. induction d as [| [k' v'] r IH]; simpl; [discriminate |].
  destruct (eqb k k') eqn:E; simpl; intros H; [reflexivity |].
  now rewrite IH.
Qed.

Lemma keys_dict_set_absent (k : K) (v : V) (d : list (K * V)) :
  dict_get eqb k d = None -> keys (dict_set eqb k v d) = keys d ++ [k].
Proof.
  unfold keys. induction d as [| [k' v'] r IH]; simpl; [reflexivity |].
  destruct (eqb k k') eqn:E; simpl; intros H; [discriminate |].
  now rewrite IH.
Qed.

Lemma dict_get_none_not_in (k : K) (d : list (K * V)) :
  dict_get eqb k d = None -> ~ In k (keys d).
Proof.
  unfold keys. induction d as [| [k' v'] r IH]; simpl; [tauto |].
  destruct (eqb k k') eqn:E; [discriminate |].
  intros H [Heq | Hin].
  - subst k'. rewrite eqb_refl_of_spec in E. discriminate.
  - now apply IH.
Qed.

(** An assignment keeps the keys distinct. *)
Lemma NoDup_keys_dict_set (k : K) (v : V) (d : list (K * V)) :
  NoDup (keys d) -> NoDup (keys (dict_set eqb k v d)).
Proof.
  intros Hnd. destruct (dict_get eqb k d) as [v0 |] eqn:E.
  - now rewrite (keys_dict_set_present k v v0 d E).
  - rewrite (keys_dict_set_absent k v d E).
    apply NoDup_app; [assumption | repeat constructor; simpl; tauto |].
    intros x Hx [<- | []]. now apply (dict_get_none_not_in k d E).
Qed.

(** Assigning twice to a key is assigning the second value. *)
Lemma dict_set_set (k : K) (v v' : V) (d : list (K * V)) :
  dict_set eqb k v' (dict_set eqb k v d) = dict_set eqb k v' d.
Proof.
  induction d as [| [k0 v0] r IH]; simpl.
  - now rewrite eqb_refl_of_spec.
  - destruct (eqb k k0) eqn:E; simpl; rewrite E; [reflexivity | now rewrite IH].
Qed.

(** Popping a key that was added by an assignment undoes the assignment. *)
Lemma dict_pop_set_absent (k : K) (v : V) (d : list (K * V)) :
  dict_get eqb k d = None -> dict_pop eqb k (dict_set eqb k v d) = d.
Proof.
  induction d as [| [k0 v0] r IH]; simpl.
  - now rewrite eqb_refl_of_spec.
  - destruct (eqb k k0) eqn:E; simpl; [discriminate |].
    intros H. rewrite E. now rewrite IH.
Qed.

End DictFacts.

Lemma string_eqb_spec (a b : string) : (a =? b)%string = true <-> a = b.
Proof. apply String.eqb_eq. Qed.

Lemma ustring_eqb_spec (a b : ustring) : ustring_eqb a b = true <-> a = b.
Proof.
  revert b. induction a as [| x a IH]; intros [| y b]; cbn [ustring_eqb];
    try (split; [discriminate | discriminate]); [tauto |].
  rewrite andb_true_iff, N.eqb_eq, IH. split; [intros [-> ->] | intros [= -> ->]]; auto.
Qed.

Lemma Z_eqb_spec (a b : Z) : (a =? b)%Z = true <-> a = b.
Proof. apply Z.eqb_eq. Qed.

(** ** Upper case *)

(** On a text of ASCII characters with no small letter, [upper] changes
    nothing. *)
Example upper_ascii : upper "msft" = ustr "MSFT" /\ upper "/SHOW 1" = ustr "/SHOW 1".
Proof. split; reflexivity. Qed.

(** Outside ASCII: the sharp s becomes two letters, e with acute (U+00E9)
    becomes U+00C9, and the micro sign and y with diaeresis leave the range
    of [string]. *)
Example upper_latin1 :
  upper Sample.strasse = ustr "STRASSE"
  /\ upper (String "233"%char EmptyString) = [201%N]
  /\ upper (String "181"%char EmptyString) = [924%N]
  /\ upper (String "255"%char EmptyString) = [376%N].
Proof. repeat split. Qed.

(** [upper] works character by character. *)
Lemma upper_app (a b : string) : upper (a ++ b) = (upper a ++ upper b)%list.
Proof.
  induction a as [| c r IH]; [reflexivity |].
  cbn [upper append]. fold (r ++ b)%string. now rewrite IH, app_assoc.
Qed.

(** ** The two tests of the trade block *)

(** A positive divisor is not zero: both tests read the same comparison. *)
Lemma py_gt_not_zero (x : float) : py_gt x 0 = true -> is_zero x = false.
Proof.
  unfold py_gt, is_zero. now destruct (PrimFloat.compare x 0).
Qed.

Lemma py_div_nonzero (a b : float) :
  is_zero b = false -> py_div a b = Ok (a / b)%float.
Proof. unfold py_div. now intros ->. Qed.

Lemma py_div_zero (a b : float) :
  is_zero b = true -> py_div a b = Raise ZeroDivisionError.
Proof. unfold py_div. now intros ->. Qed.

(** Lines 144-148 at a last price above zero. *)
Lemma decide_buy_positive_price (cfg : Preset) (price cash : float) :
  py_gt price 0 = true ->
  decide_buy cfg price cash =
    Ok (if py_ge cash (order_size cfg)
        then PlaceBuy (order_size cfg / price)%float price
        else SkipInsufficientFunds).
Proof.
  intros Hprice. unfold decide_buy.
  rewrite (py_div_nonzero _ _ (py_gt_not_zero _ Hprice)).
  simpl. now destruct (py_ge _ _).
Qed.

(** Line 152 for a position of positive quantity. *)
Lemma decide_sell_held (cfg : Preset) (price pnl : float) (q : Position) :
  py_gt (position q) 0 = true ->
  decide_sell cfg price (Some q) pnl =
    if is_zero (avgCost q * position q)%float then Raise ZeroDivisionError
    else Ok (if py_ge (pnl / (avgCost q * position q))%float (min_profit_pct cfg)
             then PlaceSell (position q) price
             else SkipSell pnl).
Proof.
  intros Hqty. unfold decide_sell. rewrite Hqty. unfold py_div.
  destruct (is_zero (avgCost q * position q)%float); simpl; [reflexivity |].
  now destruct (py_ge _ _).
Qed.

(** The only exception the two tests raise is [ZeroDivisionError]. *)
Lemma decide_buy_raises (cfg : Preset) (price cash : float) (e : exn) :
  decide_buy cfg price cash = Raise e <->
  e = ZeroDivisionError /\ is_zero price = true.
Proof.
  unfold decide_buy, py_div. destruct (is_zero price); simpl.
  - split; [intros [= <-]; now split | now intros [-> _]].
  - destruct (py_ge _ _); split; try discriminate; now intros [_ H].
Qed.

Lemma decide_sell_raises (cfg : Preset) (price : float) (pos : option Position)
    (pnl : float) (e : exn) :
  decide_sell cfg price pos pnl = Raise e <->
  e = ZeroDivisionError /\
  exists q, pos = Some q /\ py_gt (position q) 0 = true
            /\ is_zero (avgCost q * position q)%float = true.
Proof.
  unfold decide_sell, py_div. destruct pos as [q |].
  - destruct (py_gt (position q) 0) eqn:Hq.
    + destruct (is_zero (avgCost q * position q)%float) eqn:Hz; simpl.
      * split; [intros [= <-]; split; [reflexivity | now exists q] | now intros [-> _]].
      * destruct (py_ge _ _); (split; [discriminate |]);
          intros [_ [q' [[= <-] [_ H]]]]; congruence.
    + split; [discriminate |]. intros [_ [q' [[= <-] [H _]]]]. congruence.
  - split; [discriminate |]. now intros [_ [q' [H _]]].
Qed.

(** ** The digest *)

Module DigestFacts.

Import Digest.
Local Open Scope nat_scope.

(** SHA-256 and HMAC-SHA-256 on the test vectors of FIPS 180-4 and
    RFC 4231. *)
Example sha256_abc :
  hex (sha256 (encode "abc"))
  = "ba7816bf8f01cfea414140de5dae2223b00361a396177a9cb410ff61f20015ad"%string.
Proof. vm_compute. reflexivity. Qed.

Example sha256_two_blocks :
  hex (sha256 (encode "abcdbcdecdefdefgefghfghighijhijkijkljklmklmnlmnomnopnopq"))
  = "248d6a61d20638b8e5c026930c3e6039a33ce45964ff2167f6ecedd419db06c1"%string.
Proof. vm_compute. reflexivity. Qed.

Example hmac_rfc4231_case2 :
  hmac_hexdigest (encode "Jefe") (encode "what do ya want for nothing?")
  = "5bdcc146bf60754e6a042426089575c75a003f089d2739839dec58b964ec3843"%string.
Proof. vm_compute. reflexivity. Qed.

Example hmac_rfc4231_long_key :
  hmac_hexdigest (repeat xaa 131)
    (encode "Test Using Larger Than Block-Size Key - Hash Key First")
  = "60e431591ee0b67f0d8a26aacbf5b77f8e0bc6213728c5140546040f0ee37f54"%string.
Proof. vm_compute. reflexivity. Qed.

Lemma hex_byte_isascii (b : byte) :
  isascii_char (hex_digit (Byte.to_N b / 16)) = true
  /\ isascii_char (hex_digit (Byte.to_N b mod 16)) = true.
Proof. destruct b; vm_compute; split; reflexivity. Qed.

Lemma hex_isascii (bs : list byte) : isascii (hex bs) = true.
Proof.
  induction bs as [| b r IH]; [reflexivity |].
  destruct (hex_byte_isascii b) as [H1 H2].
  unfold isascii in *. cbn [hex all_chars]. now rewrite H1, H2, IH.
Qed.

Lemma hex_length (bs : list byte) : String.length (hex bs) = 2 * List.length bs.
Proof.
  induction bs as [| b r IH]; [reflexivity |].
  cbn [hex String.length List.length]. rewrite IH. lia.
Qed.

Lemma be_bytes_length (n : nat) (x : Z) : List.length (be_bytes n x) = n.
Proof.
  revert x. induction n as [| n IH]; intros x; [reflexivity |].
  cbn [be_bytes]. rewrite length_app, IH. simpl. lia.
Qed.

Lemma round_length (s : list Z) (kw : Z * Z) :
  List.length s = 8 -> List.length (round s kw) = 8.
Proof.
  intros H. do 9 (destruct s as [| ? s]; try discriminate H). reflexivity.
Qed.

Lemma rounds_length (l : list (Z * Z)) (s : list Z) :
  List.length s = 8 -> List.length (fold_left round l s) = 8.
Proof.
  revert s. induction l as [| kw l IH]; intros s H; [exact H |].
  simpl. apply IH. now apply round_length.
Qed.

Lemma compress_length (h block : list Z) :
  List.length h = 8 -> List.length (compress h block) = 8.
Proof.
  intros H. unfold compress, add_words.
  rewrite length_map, length_combine, rounds_length by exact H.
  rewrite H. reflexivity.
Qed.

Lemma sha256_length (msg : list byte) : List.length (sha256 msg) = 32.
Proof.
  unfold sha256.
  assert (H : forall (bl : list (list Z)) (h : list Z),
             List.length h = 8 -> List.length (fold_left compress bl h) = 8).
  { induction bl as [| b bl IH]; intros h Hh; [exact Hh |].
    simpl. apply IH. now apply compress_length. }
  specialize (H (blocks (List.length (words_of (pad msg))) (words_of (pad msg))) H0
                eq_refl).
  revert H. generalize (fold_left compress
    (blocks (List.length (words_of (pad msg))) (words_of (pad msg))) H0).
  intros h Hh. do 9 (destruct h as [| ? h]; try discriminate Hh).
  cbn [flat_map]. repeat rewrite length_app. repeat rewrite be_bytes_length.
  reflexivity.
Qed.

Lemma hmac_hexdigest_length (key msg : list byte) :
  String.length (hmac_hexdigest key msg) = 64.
Proof.
  unfold hmac_hexdigest, hmac_sha256. now rewrite hex_length, sha256_length.
Qed.

End DigestFacts.

(** ** Webhook authentication *)

Lemma expected_signature_isascii (secret : string) (body : list byte) :
  isascii (expected_signature secret body) = true.
Proof. apply DigestFacts.hex_isascii. Qed.

Lemma expected_signature_not_empty (secret : string) (body : list byte) :
  expected_signature secret body <> EmptyString.
Proof.
  intros H. pose proof (DigestFacts.hmac_hexdigest_length (encode secret) body) as L.
  unfold expected_signature in H. rewrite H in L. discriminate L.
Qed.

Lemma verify_unfold (secret : string) (body : list byte) (sig : string) :
  verify secret body sig =
    if isascii sig then Ok (sig =? expected_signature secret body)%string
    else Raise TypeError.
Proof.
  unfold verify, compare_digest. rewrite expected_signature_isascii.
  now destruct (isascii sig).
Qed.

(** The HMAC-SHA256 of the payload under the current secret, in hexadecimal,
    verifies; every other ASCII signature, the empty one included, is
    answered [False]; a signature with a character outside ASCII makes
    [compare_digest] raise [TypeError]. *)
Lemma verify_accepts_the_hmac_only (secret : string) (body : list byte) :
  verify secret body (expected_signature secret body) = Ok true
  /\ (forall sig : string,
        sig <> expected_signature secret body ->
        verify secret body sig = if isascii sig then Ok false else Raise TypeError)
  /\ verify secret body EmptyString = Ok false.
Proof.
  repeat split.
  - rewrite verify_unfold, expected_signature_isascii. now rewrite String.eqb_refl.
  - intros sig Hne. rewrite verify_unfold.
    apply String.eqb_neq in Hne. now rewrite Hne.
  - rewrite verify_unfold. simpl.
    destruct (expected_signature secret body) eqn:E; [| reflexivity].
    now apply expected_signature_not_empty in E.
Qed.

(** C7 at a signature that is not ASCII. For the one character of code 233,
    which is not the expected signature, [verify] does not answer [False] as
    the claim has it: the comparison raises [TypeError]. *)
Lemma verify_non_ascii_signature_raises :
  String (ascii_of_N 233) EmptyString <> expected_signature "s3cret" (encode "hello")
  /\ verify "s3cret" (encode "hello") (String (ascii_of_N 233) EmptyString)
     = Raise TypeError.
Proof.
  split.
  - intros H.
    pose proof (expected_signature_isascii "s3cret" (encode "hello")) as A.
    rewrite <- H in A. discriminate A.
  - now rewrite verify_unfold.
Qed.

(** ** Running a handler step by step *)

Section Steps.

Context {A B : Type}.
Variable k : A -> M B.
Variable s : State.

Lemma bind_ret (a : A) : bind (ret a) k s = k a s.
Proof. unfold bind, ret. now destruct (k a s). Qed.

Lemma bind_lift_ok (a : A) : bind (lift (Ok a)) k s = k a s.
Proof. unfold bind, lift. now destruct (k a s). Qed.

Lemma bind_lift_raise (e : exn) :
  bind (lift (Raise e)) k s = {| result := Raise e; final := s; effects := [] |}.
Proof. reflexivity. Qed.

Lemma bind_raise (e : exn) :
  bind (raise e) k s = {| result := Raise e; final := s; effects := [] |}.
Proof. reflexivity. Qed.

Lemma bind_gets (f : State -> A) : bind (gets f) k s = k (f s) s.
Proof. unfold bind, gets. now destruct (k (f s) s). Qed.

Lemma bind_bind {C : Type} (c : M C) (f : C -> M A) :
  bind (bind c f) k s = bind c (fun x => bind (f x) k) s.
Proof.
  unfold bind. destruct (c s) as [[x | e] s1 e1]; [| reflexivity].
  destruct (f x s1) as [[a | e] s2 e2]; [| reflexivity].
  destruct (k a s2) as [r s3 e3]. now rewrite app_assoc.
Qed.

End Steps.

Section UnitSteps.

Context {B : Type}.
Variable k : unit -> M B.
Variable s : State.

Lemma bind_modify (f : State -> State) : bind (modify f) k s = k tt (f s).
Proof. unfold bind, modify. now destruct (k tt (f s)). Qed.

Lemma bind_emit (ev : Event) : bind (emit ev) k s = after [ev] (k tt s).
Proof. unfold bind, emit, after. now destruct (k tt s). Qed.

Variable settings : Settings.
Variable ext : Collaborators.

Lemma bind_notify_ok (chat : Z) (m : Message) :
  send_message ext chat m = Ok tt ->
  bind (notify ext chat m) k s = after [Sent chat m] (k tt s).
Proof.
  intros H. unfold notify. rewrite bind_bind, H, bind_lift_ok. apply bind_emit.
Qed.

Lemma bind_notify_raise (chat : Z) (m : Message) (e : exn) :
  send_message ext chat m = Raise e ->
  bind (notify ext chat m) k s = {| result := Raise e; final := s; effects := [] |}.
Proof.
  intros H. unfold notify. now rewrite bind_bind, H, bind_lift_raise.
Qed.

Lemma bind_notify_operator (chat : Z) (m : Message) :
  py_int (TELEGRAM_CHAT_ID settings) = Some chat ->
  bind (notify_operator settings ext m) k s = bind (notify ext chat m) k s.
Proof.
  intros H. unfold notify_operator. rewrite bind_bind, H. cbn [of_option].
  now rewrite bind_lift_ok.
Qed.

End UnitSteps.

Lemma after_record {A} (es : list Event) (r : pyresult A) (s : State) (e : list Event) :
  after es {| result := r; final := s; effects := e |}
  = {| result := r; final := s; effects := es ++ e |}.
Proof. reflexivity. Qed.

Lemma ret_run {A} (a : A) (s : State) :
  ret a s = {| result := Ok a; final := s; effects := [] |}.
Proof. reflexivity. Qed.

Lemma raise_run {A} (e : exn) (s : State) :
  @raise A e s = {| result := Raise e; final := s; effects := [] |}.
Proof. reflexivity. Qed.

(** Runs the leading steps of a handler whose answers are known. *)
Ltac exec :=
  repeat (first
    [ rewrite bind_bind | rewrite bind_gets | rewrite bind_ret
    | rewrite bind_lift_ok | rewrite bind_lift_raise | rewrite bind_raise
    | rewrite bind_modify | rewrite bind_emit
    | progress cbn [negb of_option] ];
    cbv beta);
  rewrite ?ret_run, ?raise_run, ?after_record;
  cbn [app].

(** ** The webhook handler *)

Section Webhook.

Variable settings : Settings.
Variable ext : Collaborators.
Variable req : WebhookRequest.
Variable st : State.

(** A request whose signature verification answers [False] is aborted with
    403; nothing is done and nothing changes. *)
Lemma webhook_verify_false :
  verify (webhook_secret st) (payload req) (signature_of req) = Ok false ->
  webhook settings ext req st
  = {| result := Raise (HTTPException 403); final := st; effects := [] |}.
Proof.
  intros H. unfold webhook. exec. rewrite H. exec. reflexivity.
Qed.

(** An exception of the verification leaves the handler as it is. *)
Lemma webhook_verify_raises (e : exn) :
  verify (webhook_secret st) (payload req) (signature_of req) = Raise e ->
  webhook settings ext req st = {| result := Raise e; final := st; effects := [] |}.
Proof.
  intros H. unfold webhook. exec. rewrite H. exec. reflexivity.
Qed.

(** A verified request whose payload [json.loads] rejects. *)
Lemma webhook_decode_raises (e : exn) :
  verify (webhook_secret st) (payload req) (signature_of req) = Ok true ->
  json_loads ext (payload req) = Raise e ->
  webhook settings ext req st = {| result := Raise e; final := st; effects := [] |}.
Proof.
  intros Hv Hl. unfold webhook. exec. rewrite Hv. exec. rewrite Hl. exec.
  reflexivity.
Qed.

(** A verified request for a ticker without preset: the outcome is that of
    the one notification. *)
Lemma webhook_no_preset (data : json) (t : string) (chat : Z) :
  verify (webhook_secret st) (payload req) (signature_of req) = Ok true ->
  json_loads ext (payload req) = Ok data ->
  json_get data "ticker" (JStr ticker_default) = Ok (JStr t) ->
  dict_get ustring_eqb (upper t) (presets st) = None ->
  py_int (TELEGRAM_CHAT_ID settings) = Some chat ->
  webhook settings ext req st
  = match send_message ext chat (NoPresetFor (upper t)) with
    | Ok _ => {| result := Ok 200; final := st;
                 effects := [Sent chat (NoPresetFor (upper t))] |}
    | Raise e => {| result := Raise e; final := st; effects := [] |}
    end.
Proof.
  intros Hv Hl Hg Hp Hc. unfold webhook. exec. rewrite Hv. exec.
  rewrite Hl. exec. rewrite Hg. exec. cbn [json_upper]. exec. rewrite Hp.
  rewrite (bind_notify_operator _ _ settings ext chat _ Hc).
  destruct (send_message ext chat (NoPresetFor (upper t))) as [[] | e] eqn:Hs.
  - rewrite (bind_notify_ok _ _ ext chat _ Hs). exec. reflexivity.
  - now rewrite (bind_notify_raise _ _ ext chat _ e Hs).
Qed.

(** A verified request for a ticker with a preset: once the contract is
    qualified and the last price is read, line 142 evaluates the name
    [signal], which is not bound. *)
Lemma webhook_preset_name_error (data : json) (t : string) (cfg : Preset) (p : float) :
  verify (webhook_secret st) (payload req) (signature_of req) = Ok true ->
  json_loads ext (payload req) = Ok data ->
  json_get data "ticker" (JStr ticker_default) = Ok (JStr t) ->
  dict_get ustring_eqb (upper t) (presets st) = Some cfg ->
  qualifyContracts ext (upper t) = Ok tt ->
  reqMktData_last ext (upper t) = Ok p ->
  webhook settings ext req st
  = {| result := Raise NameError; final := st; effects := [] |}.
Proof.
  intros Hv Hl Hg Hp Hq Hm. unfold webhook. exec. rewrite Hv. exec.
  rewrite Hl. exec. rewrite Hg. exec. cbn [json_upper]. exec. rewrite Hp.
  exec. rewrite Hq. exec. rewrite Hm. exec. unfold signal_binding. exec.
  reflexivity.
Qed.

End Webhook.

Lemma webhook_preset_name_error_witness :
  webhook Sample.settings Sample.ext
    (Sample.signed_request "s3cret" Sample.msft_body) Sample.msft_registered
  = {| result := Raise NameError; final := Sample.msft_registered; effects := [] |}.
Proof.
  assert (Hv : verify (webhook_secret Sample.msft_registered)
                 (payload (Sample.signed_request "s3cret" Sample.msft_body))
                 (signature_of (Sample.signed_request "s3cret" Sample.msft_body))
               = Ok true) by (vm_compute; reflexivity).
  assert (Hl : json_loads Sample.ext
                 (payload (Sample.signed_request "s3cret" Sample.msft_body))
               = Ok (JDict [("ticker", JStr "msft")])) by (vm_compute; reflexivity).
  exact (webhook_preset_name_error Sample.settings Sample.ext
           (Sample.signed_request "s3cret" Sample.msft_body) Sample.msft_registered
           (JDict [("ticker", JStr "msft")]) "msft" Sample.aapl 100
           Hv Hl eq_refl eq_refl eq_refl eq_refl).
Defined.

(** ** The alerts the trade block is written for *)

(** C1, against the code. A signed alert to buy msft arrives; MSFT has a
    preset of 500, the last price is 100, above zero, and the gateway reports
    1000 of available funds, which reach the order size. Lines 144-148 are
    written to buy 5 at 100. The handler does not get there: line 142
    evaluates the name [signal], which lines 131-132 do not bind, and the
    request ends in [NameError], a server error, with no order placed and
    nothing sent. *)
Theorem webhook_buy_alert_name_error :
  json_loads Sample.ext Sample.buy_body
  = Ok (JDict [("ticker", JStr "msft"); ("signal", JStr "BUY")])
  /\ dict_get ustring_eqb (upper "msft") (presets Sample.msft_registered)
     = Some Sample.aapl
  /\ py_gt 100 0 = true
  /\ decide_buy Sample.aapl 100 1000 = Ok (PlaceBuy 5 100)
  /\ webhook Sample.settings Sample.ext
       (Sample.signed_request "s3cret" Sample.buy_body) Sample.msft_registered
     = {| result := Raise NameError; final := Sample.msft_registered; effects := [] |}
  /\ response (webhook Sample.settings Sample.ext
                 (Sample.signed_request "s3cret" Sample.buy_body)
                 Sample.msft_registered) = 500.
Proof.
  split; [| split; [| split; [| split; [| split]]]]; vm_compute; reflexivity.
Qed.

(** C2, against the code. A signed alert to sell msft arrives; MSFT has a
    preset with a minimum profit of 0.1, and the gateway reports 10 shares
    at an average cost of 50 and an unrealised profit of 100, a ratio of
    0.2. Lines 150-155 are written to sell the 10 shares at the last price.
    The handler stops at line 142 on the unbound name [signal]: no order, no
    notification, a server error. *)
Theorem webhook_sell_alert_name_error :
  json_loads Sample.ext_holding Sample.sell_body
  = Ok (JDict [("ticker", JStr "msft"); ("signal", JStr "SELL")])
  /\ dict_get ustring_eqb (upper "msft") (presets Sample.msft_registered)
     = Some Sample.aapl
  /\ py_gt (50 * 10)%float 0 = true
  /\ decide_sell Sample.aapl 100 (Some {| position := 10; avgCost := 50 |}) 100
     = Ok (PlaceSell 10 100)
  /\ webhook Sample.settings Sample.ext_holding
       (Sample.signed_request "s3cret" Sample.sell_body) Sample.msft_registered
     = {| result := Raise NameError; final := Sample.msft_registered; effects := [] |}
  /\ response (webhook Sample.settings Sample.ext_holding
                 (Sample.signed_request "s3cret" Sample.sell_body)
                 Sample.msft_registered) = 500.
Proof.
  split; [| split; [| split; [| split; [| split]]]]; vm_compute; reflexivity.
Qed.

(** C4, against the code. The action SELL is one of the two the claim
    accepts, and with no position held lines 150-155 are written to skip
    the sale without failing. The signed alert to sell msft, with a preset
    for MSFT and no position, fails all the same: line 142 raises
    [NameError] on the unbound name [signal], as it does for every action. *)
Theorem webhook_valid_action_fails :
  json_loads Sample.ext Sample.sell_body
  = Ok (JDict [("ticker", JStr "msft"); ("signal", JStr "SELL")])
  /\ dict_get ustring_eqb (upper "msft") (presets Sample.msft_registered)
     = Some Sample.aapl
  /\ decide_sell Sample.aapl 100 None 0 = Ok (SkipSell 0)
  /\ result (webhook Sample.settings Sample.ext
               (Sample.signed_request "s3cret" Sample.sell_body)
               Sample.msft_registered)
     = Raise NameError
  /\ effects (webhook Sample.settings Sample.ext
                (Sample.signed_request "s3cret" Sample.sell_body)
                Sample.msft_registered)
     = [].
Proof.
  split; [| split; [| split; [| split]]]; vm_compute; reflexivity.
Qed.

(** C5, against the code. A signed alert to sell msft arrives while the
    gateway reports 10 shares at an average cost of zero: the quantity is
    above zero and the cost basis is not. The claim has the sale skipped and
    the evaluation total. The handler raises [NameError] at line 142 and
    skips nothing; and line 152, which it does not reach, divides by the
    cost basis with no guard. *)
Theorem webhook_zero_cost_basis_fails :
  json_loads Sample.ext_zero_basis Sample.sell_body
  = Ok (JDict [("ticker", JStr "msft"); ("signal", JStr "SELL")])
  /\ dict_get ustring_eqb (upper "msft") (presets Sample.msft_registered)
     = Some Sample.aapl
  /\ py_gt 10 0 = true
  /\ py_le (0 * 10)%float 0 = true
  /\ decide_sell Sample.aapl 100 (Some {| position := 10; avgCost := 0 |}) 100
     = Raise ZeroDivisionError
  /\ webhook Sample.settings Sample.ext_zero_basis
       (Sample.signed_request "s3cret" Sample.sell_body) Sample.msft_registered
     = {| result := Raise NameError; final := Sample.msft_registered; effects := [] |}.
Proof.
  split; [| split; [| split; [| split; [| split]]]]; vm_compute; reflexivity.
Qed.

(** A signature that is not 64 characters long is not the expected one. *)
Lemma other_length_differs (sig secret : string) (body : list byte) :
  String.length sig <> 64%nat -> sig <> expected_signature secret body.
Proof.
  intros Hlen Heq. apply Hlen. rewrite Heq.
  apply DigestFacts.hmac_hexdigest_length.
Qed.

(** A request whose signature is not the HMAC of its payload under the
    current secret goes no further than line 128, whatever the decoder and
    the collaborators would answer: no order, no notification, no change of
    the presets, the sessions or the secret. It is aborted with 403 when the
    signature is ASCII; a signature with a character outside ASCII makes the
    comparison raise [TypeError], which Flask answers with 500. *)
Lemma webhook_rejects_bad_signature
    (settings : Settings) (ext : Collaborators) (req : WebhookRequest) (st : State) :
  signature_of req <> expected_signature (webhook_secret st) (payload req) ->
  webhook settings ext req st
  = {| result := if isascii (signature_of req)
                 then Raise (HTTPException 403) else Raise TypeError;
       final := st;
       effects := [] |}
  /\ response (webhook settings ext req st)
     = if isascii (signature_of req) then 403 else 500.
Proof.
  intros Hne.
  pose proof (verify_unfold (webhook_secret st) (payload req) (signature_of req)) as Hv.
  apply String.eqb_neq in Hne. rewrite Hne in Hv.
  destruct (isascii (signature_of req)).
  - rewrite (webhook_verify_false settings ext req st Hv). now split.
  - rewrite (webhook_verify_raises settings ext req st _ Hv). now split.
Qed.

Example webhook_rejects_short_signature :
  webhook Sample.settings Sample.ext
    {| payload := Sample.msft_body; x_signature := Some "00" |} Sample.empty
  = {| result := Raise (HTTPException 403); final := Sample.empty; effects := [] |}
  /\ response (webhook Sample.settings Sample.ext
       {| payload := Sample.msft_body; x_signature := Some "00" |} Sample.empty)
     = 403.
Proof.
  apply (webhook_rejects_bad_signature Sample.settings Sample.ext
           {| payload := Sample.msft_body; x_signature := Some "00" |} Sample.empty).
  apply other_length_differs. discriminate.
Qed.

(** C6 at a signature that is not ASCII. The request does not verify and
    nothing is done with it, but it is answered with the server error 500,
    not with a status of the 4xx class as the claim has it. *)
Lemma webhook_non_ascii_signature_server_error :
  signature_of {| payload := Sample.msft_body;
                  x_signature := Some (String (ascii_of_N 233) EmptyString) |}
    <> expected_signature (webhook_secret Sample.empty) Sample.msft_body
  /\ response (webhook Sample.settings Sample.ext
       {| payload := Sample.msft_body;
          x_signature := Some (String (ascii_of_N 233) EmptyString) |} Sample.empty)
     = 500
  /\ client_error 500 = false.
Proof.
  assert (Hne : signature_of {| payload := Sample.msft_body;
                  x_signature := Some (String (ascii_of_N 233) EmptyString) |}
    <> expected_signature (webhook_secret Sample.empty) Sample.msft_body).
  { apply other_length_differs. discriminate. }
  split; [exact Hne | split; [| reflexivity]].
  rewrite (webhook_verify_raises Sample.settings Sample.ext _ Sample.empty TypeError);
    [reflexivity |].
  now rewrite verify_unfold.
Qed.

(** C3, as the code has it. A request that passes the verification and whose
    payload decodes to an object naming a ticker without preset is answered
    200 once the operator is told so, and no order is placed. Nothing in the
    handler catches an exception: when [json.loads] rejects the payload, or
    when the notification cannot be sent, the exception ends the request. *)
Theorem webhook_verified_outcomes
    (settings : Settings) (ext : Collaborators) (req : WebhookRequest) (st : State) :
  verify (webhook_secret st) (payload req) (signature_of req) = Ok true ->
  (forall e : exn,
     json_loads ext (payload req) = Raise e ->
     webhook settings ext req st
     = {| result := Raise e; final := st; effects := [] |})
  /\ (forall (data : json) (t : string) (chat : Z),
        json_loads ext (payload req) = Ok data ->
        json_get data "ticker" (JStr ticker_default) = Ok (JStr t) ->
        dict_get ustring_eqb (upper t) (presets st) = None ->
        py_int (TELEGRAM_CHAT_ID settings) = Some chat ->
        (send_message ext chat (NoPresetFor (upper t)) = Ok tt ->
         webhook settings ext req st
         = {| result := Ok 200; final := st;
              effects := [Sent chat (NoPresetFor (upper t))] |}
         /\ response (webhook settings ext req st) = 200)
        /\ (forall e : exn,
              send_message ext chat (NoPresetFor (upper t)) = Raise e ->
              webhook settings ext req st
              = {| result := Raise e; final := st; effects := [] |})).
Proof.
  intros Hv. split.
  - intros e Hl. exact (webhook_decode_raises settings ext req st e Hv Hl).
  - intros data t chat Hl Hg Hp Hc.
    pose proof (webhook_no_preset settings ext req st data t chat Hv Hl Hg Hp Hc) as H.
    split.
    + intros Hs. rewrite Hs in H. rewrite H. now split.
    + intros e Hs. now rewrite Hs in H.
Qed.

Lemma webhook_verified_outcomes_witness :
  webhook Sample.settings Sample.ext
    (Sample.signed_request "s3cret" Sample.msft_body) Sample.empty
  = {| result := Ok 200; final := Sample.empty;
       effects := [Sent 42 (NoPresetFor (upper "msft"))] |}.
Proof.
  assert (Hv : verify (webhook_secret Sample.empty)
                 (payload (Sample.signed_request "s3cret" Sample.msft_body))
                 (signature_of (Sample.signed_request "s3cret" Sample.msft_body))
               = Ok true) by (vm_compute; reflexivity).
  assert (Hl : json_loads Sample.ext
                 (payload (Sample.signed_request "s3cret" Sample.msft_body))
               = Ok (JDict [("ticker", JStr "msft")])) by (vm_compute; reflexivity).
  assert (Hg : json_get (JDict [("ticker", JStr "msft")]) "ticker"
                 (JStr ticker_default) = Ok (JStr "msft")) by reflexivity.
  assert (Hp : dict_get ustring_eqb (upper "msft") (presets Sample.empty) = None)
    by reflexivity.
  assert (Hc : py_int (TELEGRAM_CHAT_ID Sample.settings) = Some 42)
    by (vm_compute; reflexivity).
  assert (Hs : send_message Sample.ext 42 (NoPresetFor (upper "msft")) = Ok tt)
    by reflexivity.
  exact (proj1 (proj1 (proj2 (webhook_verified_outcomes Sample.settings Sample.ext
                                (Sample.signed_request "s3cret" Sample.msft_body)
                                Sample.empty Hv)
                         (JDict [("ticker", JStr "msft")]) "msft" 42 Hl Hg Hp Hc) Hs)).
Defined.

(** C3 as stated fails. A signed request whose payload is no JSON text, one
    whose payload is a JSON array, and one whose notification Telegram does
    not take are all answered 500. *)
Lemma webhook_verified_server_error_counterexample :
  verify (webhook_secret Sample.empty) (encode "hello")
    (expected_signature "s3cret" (encode "hello")) = Ok true
  /\ response (webhook Sample.settings Sample.ext
       (Sample.signed_request "s3cret" (encode "hello")) Sample.empty) = 500
  /\ response (webhook Sample.settings Sample.ext
       (Sample.signed_request "s3cret" (encode "[]")) Sample.empty) = 500
  /\ response (webhook Sample.settings Sample.ext_telegram_down
       (Sample.signed_request "s3cret" Sample.msft_body) Sample.empty) = 500.
Proof.
  split; [| split; [| split]]; vm_compute; reflexivity.
Qed.

(** ** The configuration handler *)

(** A text that starts with [/set] and a blank is neither of the two secret
    commands. *)
Lemma set_prefix_excludes (s : string) :
  startswith "/set " s = true ->
  startswith "/setsecret " s = false /\ (s =? "/getsecret")%string = false.
Proof.
  unfold startswith. intros H.
  do 5 (destruct s as [| ? s]; [discriminate H |];
        cbn [String.prefix] in H;
        match type of H with
        | (if ?d then _ else _) = true => destruct d; [subst | discriminate H]
        end).
  split; reflexivity.
Qed.

Section Telegram.

Variable settings : Settings.
Variable ext : Collaborators.

Lemma set_command_falls_through (chat : Z) (txt : string) :
  startswith "/set " (lower txt) && (List.length (split txt) =? 4)%nat = false ->
  set_command ext chat txt = ret None.
Proof.
  unfold set_command. destruct (startswith "/set " (lower txt)); [| reflexivity].
  destruct (split txt) as [| a [| b [| c [| d [| e l]]]]]; try reflexivity.
  discriminate.
Qed.

Variable u : Update.
Variable st : State.

Hypothesis authorised :
  (str_of_int (chat_id u) =? TELEGRAM_CHAT_ID settings)%string = true.

(** An authorised message that is none of the direct commands is handled by
    the dialogue, and by [/show] and the help text when no session is
    concerned. *)
Lemma telegram_config_dialogue :
  reaches_dialogue (text_of u) = true ->
  telegram_config settings ext u st
  = bind (dialogue ext (chat_id u) (text_of u))
      (fun r => match r with
                | Some status => ret status
                | None => show_or_help ext (chat_id u) (text_of u)
                end) st.
Proof.
  unfold reaches_dialogue. rewrite !andb_true_iff, !negb_true_iff.
  intros [[H1 H2] H3]. unfold telegram_config. cbv zeta.
  rewrite authorised, H1, H2. cbn [negb].
  rewrite (set_command_falls_through _ _ H3). now rewrite bind_ret.
Qed.

(** The interactive [/set] with no session open (lines 81-84). *)
Lemma telegram_config_opens :
  lower (text_of u) = "/set" ->
  dict_get Z.eqb (chat_id u) (user_states st) = None ->
  telegram_config settings ext u st
  = notified ext (chat_id u) EnterTicker
      {| webhook_secret := webhook_secret st;
         presets := presets st;
         user_states :=
           dict_set Z.eqb (chat_id u)
             {| s_step := StepTicker; s_ticker := None; s_order_size := None |}
             (user_states st) |}.
Proof.
  intros Hset Hnone. rewrite telegram_config_dialogue.
  - unfold dialogue, set_session. exec. rewrite Hnone, Hset.
    cbn [String.eqb Ascii.eqb Bool.eqb andb]. exec.
    unfold notified.
    destruct (send_message ext (chat_id u) EnterTicker) as [[] | e] eqn:Hs;
      [ rewrite (bind_notify_ok _ _ ext _ _ Hs)
      | rewrite (bind_notify_raise _ _ ext _ _ e Hs) ];
      exec; reflexivity.
  - unfold reaches_dialogue. now rewrite Hset.
Qed.

(** Lines 65-77: the one-shot [/set TICKER SIZE PROFIT]. *)
Lemma telegram_config_one_shot (c t sz pf : string) (size profit : float) :
  startswith "/set " (lower (text_of u)) = true ->
  split (text_of u) = [c; t; sz; pf] ->
  py_float sz = Some size ->
  py_float pf = Some profit ->
  telegram_config settings ext u st
  = notified ext (chat_id u) (PresetSaved (upper t) size profit)
      {| webhook_secret := webhook_secret st;
         presets :=
           dict_set ustring_eqb (upper t)
             {| order_size := size; min_profit_pct := (profit / 100)%float |}
             (presets st);
         user_states := user_states st |}.
Proof.
  intros Hset Hsplit Hsize Hprofit.
  destruct (set_prefix_excludes _ Hset) as [H1 H2].
  unfold telegram_config. cbv zeta. rewrite authorised, H1, H2. cbn [negb].
  unfold set_command, set_preset. rewrite Hset, Hsplit, Hsize, Hprofit. exec.
  unfold notified.
  destruct (send_message ext (chat_id u) (PresetSaved (upper t) size profit))
    as [[] | e] eqn:Hs;
    [ rewrite (bind_notify_ok _ _ ext _ _ Hs)
    | rewrite (bind_notify_raise _ _ ext _ _ e Hs) ];
    exec; reflexivity.
Qed.

Variable sess : Session.
Hypothesis open_session : dict_get Z.eqb (chat_id u) (user_states st) = Some sess.
Hypothesis not_direct : reaches_dialogue (text_of u) = true.

(** Lines 87-89: the text is the ticker. *)
Lemma telegram_config_ticker :
  s_step sess = StepTicker ->
  telegram_config settings ext u st
  = notified ext (chat_id u) EnterSize
      {| webhook_secret := webhook_secret st;
         presets := presets st;
         user_states :=
           dict_set Z.eqb (chat_id u)
             {| s_step := StepSize; s_ticker := Some (upper (text_of u));
                s_order_size := s_order_size sess |}
             (user_states st) |}.
Proof.
  intros Hstep. rewrite (telegram_config_dialogue not_direct).
  unfold dialogue, set_session. exec. rewrite open_session, Hstep. exec.
  unfold notified.
  destruct (send_message ext (chat_id u) EnterSize) as [[] | e] eqn:Hs;
    [ rewrite (bind_notify_ok _ _ ext _ _ Hs)
    | rewrite (bind_notify_raise _ _ ext _ _ e Hs) ];
    exec; reflexivity.
Qed.

(** Lines 90-96: the text is the order size. *)
Lemma telegram_config_size (size : float) :
  s_step sess = StepSize ->
  py_float (text_of u) = Some size ->
  telegram_config settings ext u st
  = notified ext (chat_id u) EnterProfit
      {| webhook_secret := webhook_secret st;
         presets := presets st;
         user_states :=
           dict_set Z.eqb (chat_id u)
             {| s_step := StepProfit; s_ticker := s_ticker sess;
                s_order_size := Some size |}
             (user_states st) |}.
Proof.
  intros Hstep Hsize. rewrite (telegram_config_dialogue not_direct).
  unfold dialogue, set_session. exec. rewrite open_session, Hstep, Hsize. exec.
  unfold notified.
  destruct (send_message ext (chat_id u) EnterProfit) as [[] | e] eqn:Hs;
    [ rewrite (bind_notify_ok _ _ ext _ _ Hs)
    | rewrite (bind_notify_raise _ _ ext _ _ e Hs) ];
    exec; reflexivity.
Qed.

(** Lines 97-104: the text is the profit, and the preset is written. The
    session is popped after the notification. *)
Lemma telegram_config_profit (ticker : ustring) (size profit : float) :
  s_step sess = StepProfit ->
  s_ticker sess = Some ticker ->
  s_order_size sess = Some size ->
  py_float (text_of u) = Some profit ->
  telegram_config settings ext u st
  = match send_message ext (chat_id u) (Saved ticker size profit) with
    | Ok _ =>
        {| result := Ok 200;
           final :=
             {| webhook_secret := webhook_secret st;
                presets :=
                  dict_set ustring_eqb ticker
                    {| order_size := size; min_profit_pct := (profit / 100)%float |}
                    (presets st);
                user_states := dict_pop Z.eqb (chat_id u) (user_states st) |};
           effects := [Sent (chat_id u) (Saved ticker size profit)] |}
    | Raise e =>
        {| result := Raise e;
           final :=
             {| webhook_secret := webhook_secret st;
                presets :=
                  dict_set ustring_eqb ticker
                    {| order_size := size; min_profit_pct := (profit / 100)%float |}
                    (presets st);
                user_states := user_states st |};
           effects := [] |}
    end.
Proof.
  intros Hstep Hticker Hsize Hprofit. rewrite (telegram_config_dialogue not_direct).
  unfold dialogue, set_preset, pop_session. exec.
  rewrite open_session, Hstep, Hprofit, Hsize, Hticker. exec.
  destruct (send_message ext (chat_id u) (Saved ticker size profit)) as [[] | e] eqn:Hs.
  - rewrite (bind_notify_ok _ _ ext _ _ Hs). exec. reflexivity.
  - now rewrite (bind_notify_raise _ _ ext _ _ e Hs).
Qed.

End Telegram.

Lemma final_notified (ext : Collaborators) (chat : Z) (m : Message) (s : State) :
  final (notified ext chat m s) = s.
Proof. unfold notified. now destruct (send_message ext chat m). Qed.

(** C10, as the code has it. While a session waits for the ticker, an
    authorised text that is not one of the direct commands (the two secret
    commands and the four-token [/set]) is stored, stripped and in upper
    case, as the ticker of the session, which then waits for the size; the
    operator is asked for the size. A text such as [/show] or [/set] alone
    is stored like any other. *)
Theorem ticker_step_stores_upper_text
    (settings : Settings) (ext : Collaborators) (u : Update) (st : State)
    (sess : Session) :
  (str_of_int (chat_id u) =? TELEGRAM_CHAT_ID settings)%string = true ->
  dict_get Z.eqb (chat_id u) (user_states st) = Some sess ->
  s_step sess = StepTicker ->
  reaches_dialogue (text_of u) = true ->
  telegram_config settings ext u st
  = notified ext (chat_id u) EnterSize
      {| webhook_secret := webhook_secret st;
         presets := presets st;
         user_states :=
           dict_set Z.eqb (chat_id u)
             {| s_step := StepSize; s_ticker := Some (upper (text_of u));
                s_order_size := s_order_size sess |}
             (user_states st) |}
  /\ dict_get Z.eqb (chat_id u)
       (user_states (final (telegram_config settings ext u st)))
     = Some {| s_step := StepSize; s_ticker := Some (upper (text_of u));
               s_order_size := s_order_size sess |}.
Proof.
  intros Hauth Hsess Hstep Hdirect.
  rewrite (telegram_config_ticker settings ext u st Hauth sess Hsess Hdirect Hstep).
  split; [reflexivity |].
  rewrite final_notified. cbn [user_states].
  apply dict_get_set_same. exact Z_eqb_spec.
Qed.

Lemma ticker_step_stores_upper_text_witness :
  dict_get Z.eqb 42
    (user_states (final (telegram_config Sample.settings Sample.ext
                           (message 42 " /show ") Sample.awaiting_ticker)))
  = Some {| s_step := StepSize; s_ticker := Some (ustr "/SHOW");
            s_order_size := None |}.
Proof.
  exact (proj2 (ticker_step_stores_upper_text Sample.settings Sample.ext
                  (message 42 " /show ") Sample.awaiting_ticker
                  {| s_step := StepTicker; s_ticker := None; s_order_size := None |}
                  eq_refl eq_refl eq_refl eq_refl)).
Defined.

(** The ticker text with a sharp s is stored as Python stores it, with two
    letters S. *)
Example ticker_step_sharp_s :
  dict_get Z.eqb 42
    (user_states (final (telegram_config Sample.settings Sample.ext
                           (message 42 Sample.strasse) Sample.awaiting_ticker)))
  = Some {| s_step := StepSize; s_ticker := Some (ustr "STRASSE");
            s_order_size := None |}.
Proof. vm_compute. reflexivity. Qed.

(** C10 as stated fails on the texts that are direct commands: with a
    session waiting for the ticker, [/getsecret] is answered with the secret
    and [/set AAPL 100 5] writes a preset, and both leave the session as it
    was. *)
Lemma ticker_step_direct_command_counterexample :
  telegram_config Sample.settings Sample.ext (message 42 "/getsecret")
    Sample.awaiting_ticker
  = {| result := Ok 200; final := Sample.awaiting_ticker;
       effects := [Sent 42 (CurrentSecret "s3cret")] |}
  /\ user_states (final (telegram_config Sample.settings Sample.ext
                           (message 42 "/set AAPL 100 5") Sample.awaiting_ticker))
     = user_states Sample.awaiting_ticker.
Proof.
  split; vm_compute; reflexivity.
Qed.

(** C9, as the code has it. With no session open for the operator, the
    messages [/set], [AAPL], [100] and [5], when each reply to the operator is
    delivered, leave the preset
    [AAPL -> {order_size: 100, min_profit_pct: 0.05}] in the registry and no
    session for the operator; nothing else changes. *)
Theorem interactive_session_writes_preset
    (settings : Settings) (ext : Collaborators) (chat : Z) (st : State) :
  (str_of_int chat =? TELEGRAM_CHAT_ID settings)%string = true ->
  (forall m : Message, send_message ext chat m = Ok tt) ->
  dict_get Z.eqb chat (user_states st) = None ->
  let st' :=
    run_updates settings ext (map (message chat) ["/set"; "AAPL"; "100"; "5"]) st in
  dict_get ustring_eqb (ustr "AAPL") (presets st')
  = Some {| order_size := 100; min_profit_pct := 0.05 |}
  /\ dict_get Z.eqb chat (user_states st') = None
  /\ st' = {| webhook_secret := webhook_secret st;
              presets :=
                dict_set ustring_eqb (ustr "AAPL")
                  {| order_size := 100; min_profit_pct := 0.05 |} (presets st);
              user_states := user_states st |}.
Proof.
  intros Hauth Hsend Hnone st'.
  assert (Hst' : st' = {| webhook_secret := webhook_secret st;
              presets :=
                dict_set ustring_eqb (ustr "AAPL")
                  {| order_size := 100; min_profit_pct := 0.05 |} (presets st);
              user_states := user_states st |}).
  { unfold st'. cbn [run_updates map].
    rewrite (telegram_config_opens settings ext (message chat "/set") st Hauth
               eq_refl Hnone).
    rewrite final_notified.
    erewrite (telegram_config_ticker settings ext (message chat "AAPL"));
      [ | exact Hauth
        | cbn [user_states chat_id message]; apply (dict_get_set_same Z.eqb Z_eqb_spec)
        | reflexivity | reflexivity ].
    rewrite final_notified.
    erewrite (telegram_config_size settings ext (message chat "100"));
      [ | exact Hauth
        | cbn [user_states chat_id message]; apply (dict_get_set_same Z.eqb Z_eqb_spec)
        | reflexivity | reflexivity | vm_compute; reflexivity ].
    rewrite final_notified.
    erewrite (telegram_config_profit settings ext (message chat "5"));
      [ | exact Hauth
        | cbn [user_states chat_id message]; apply (dict_get_set_same Z.eqb Z_eqb_spec)
        | reflexivity | reflexivity | reflexivity | reflexivity
        | vm_compute; reflexivity ].
    rewrite Hsend. cbn [final user_states presets webhook_secret chat_id message].
    rewrite !(dict_set_set Z.eqb Z_eqb_spec).
    rewrite (dict_pop_set_absent Z.eqb Z_eqb_spec _ _ _ Hnone).
    reflexivity. }
  rewrite Hst'. cbn [presets user_states]. repeat split.
  - apply dict_get_set_same. exact ustring_eqb_spec.
  - exact Hnone.
Qed.

Lemma interactive_session_writes_preset_witness :
  run_updates Sample.settings Sample.ext
    (map (message 42) ["/set"; "AAPL"; "100"; "5"]) Sample.empty
  = {| webhook_secret := "s3cret";
       presets := [(ustr "AAPL", {| order_size := 100; min_profit_pct := 0.05 |})];
       user_states := [] |}.
Proof.
  exact (proj2 (proj2 (interactive_session_writes_preset Sample.settings Sample.ext
                         42 Sample.empty eq_refl (fun _ => eq_refl) eq_refl))).
Defined.

(** C9 as stated fails when the confirmation of line 103 cannot be sent:
    line 102 has written the preset, and line 104, which closes the session,
    is not reached. After the four messages the preset is in the registry
    and the session of the operator is still there, waiting for the
    profit. *)
Lemma interactive_session_lost_confirmation_counterexample :
  let st' :=
    run_updates Sample.settings Sample.ext_confirmation_lost
      (map (message 42) ["/set"; "AAPL"; "100"; "5"]) Sample.empty in
  dict_get ustring_eqb (ustr "AAPL") (presets st')
  = Some {| order_size := 100; min_profit_pct := 0.05 |}
  /\ dict_get Z.eqb 42 (user_states st')
     = Some {| s_step := StepProfit; s_ticker := Some (ustr "AAPL");
               s_order_size := Some 100%float |}
  /\ ~ (dict_get ustring_eqb (ustr "AAPL") (presets st')
        = Some {| order_size := 100; min_profit_pct := 0.05 |}
        /\ dict_get Z.eqb 42 (user_states st') = None).
Proof.
  cbv zeta. split; [vm_compute; reflexivity |].
  split; [vm_compute; reflexivity |].
  intros [_ H]. vm_compute in H. discriminate H.
Qed.

(** ** The registry under the configuration handler *)

Section Frames.

Context {A B : Type}.

Lemma frame_ret (a : A) : frame (ret a).
Proof. intros s. reflexivity. Qed.

Lemma frame_lift (r : pyresult A) : frame (lift r).
Proof. intros s. reflexivity. Qed.

Lemma frame_gets (f : State -> A) : frame (gets f).
Proof. intros s. reflexivity. Qed.

Lemma frame_bind (c : M A) (k : A -> M B) :
  frame c -> (forall a, frame (k a)) -> frame (bind c k).
Proof.
  intros Hc Hk s. unfold bind. specialize (Hc s).
  destruct (c s) as [[a | e] s1 e1]; cbn [final] in *; [| exact Hc].
  specialize (Hk a s1). destruct (k a s1) as [r s2 e2]. cbn [final] in *.
  congruence.
Qed.

Lemma writes_once_of_frame (c : M A) : frame c -> writes_once c.
Proof. intros H s. left. apply H. Qed.

Lemma writes_once_bind (c : M A) (k : A -> M B) :
  frame c -> (forall a, writes_once (k a)) -> writes_once (bind c k).
Proof.
  intros Hc Hk s. unfold bind. specialize (Hc s).
  destruct (c s) as [[a | e] s1 e1]; cbn [final] in *; [| now left].
  specialize (Hk a s1). destruct (k a s1) as [r s2 e2]. cbn [final] in *.
  now rewrite <- Hc.
Qed.

Lemma writes_once_then_frame (c : M A) (k : A -> M B) :
  writes_once c -> (forall a, frame (k a)) -> writes_once (bind c k).
Proof.
  intros Hc Hk s. unfold bind. specialize (Hc s).
  destruct (c s) as [[a | e] s1 e1]; cbn [final] in *; [| exact Hc].
  specialize (Hk a s1). destruct (k a s1) as [r s2 e2]. cbn [final] in *.
  now rewrite Hk.
Qed.

Lemma frame_bind_ret (a : A) (k : A -> M B) : frame (k a) -> frame (bind (ret a) k).
Proof. intros H s. rewrite bind_ret. apply H. Qed.

Lemma writes_once_ext (c c' : M A) :
  (forall s, c s = c' s) -> writes_once c' -> writes_once c.
Proof. intros E H s. rewrite E. apply H. Qed.

End Frames.

Section HandlerFrames.

Variable ext : Collaborators.

Lemma frame_notify (chat : Z) (m : Message) : frame (notify ext chat m).
Proof.
  unfold notify. apply frame_bind; [apply frame_lift |].
  intros _ s. reflexivity.
Qed.

Lemma frame_set_session (chat : Z) (x : Session) : frame (set_session chat x).
Proof. intros s. reflexivity. Qed.

Lemma frame_pop_session (chat : Z) : frame (pop_session chat).
Proof. intros s. reflexivity. Qed.

Lemma frame_set_webhook_secret (secret : string) : frame (set_webhook_secret secret).
Proof. intros s. reflexivity. Qed.

(** An assignment to [presets] followed by steps that leave it alone. *)
Lemma writes_once_set_preset {B} (t : ustring) (p : Preset) (k : unit -> M B) :
  (forall x, frame (k x)) -> writes_once (bind (set_preset t p) k).
Proof.
  intros Hk s. unfold set_preset. rewrite bind_modify.
  right. exists t, p. now rewrite Hk.
Qed.

Ltac frames :=
  repeat first
    [ apply frame_ret | apply frame_lift | apply frame_gets | apply frame_notify
    | apply frame_set_session | apply frame_pop_session
    | apply frame_set_webhook_secret
    | apply frame_bind_ret | apply frame_bind
    | lazymatch goal with
      | |- frame _ => fail
      | |- forall _, _ => intro
      end ].

Lemma frame_show_or_help (chat : Z) (txt : string) : frame (show_or_help ext chat txt).
Proof.
  unfold show_or_help. destruct (lower txt =? "/show")%string; frames.
  match goal with |- frame (match ?x with _ => _ end) => destruct x end; frames.
Qed.

Lemma writes_once_dialogue (chat : Z) (txt : string) :
  writes_once (dialogue ext chat txt).
Proof.
  unfold dialogue. apply writes_once_bind; [apply frame_gets |].
  intros [sess |].
  - destruct (s_step sess).
    + apply writes_once_of_frame; frames.
    + apply writes_once_of_frame. destruct (py_float txt); frames.
    + destruct (py_float txt) as [profit |]; [| apply writes_once_of_frame; frames].
      apply writes_once_bind; [apply frame_lift | intros size].
      apply writes_once_bind; [apply frame_lift | intros ticker].
      apply writes_once_set_preset. frames.
  - apply writes_once_of_frame. destruct (lower txt =? "/set")%string; frames.
Qed.

(** The one-shot [/set] either falls through, touching nothing, or returns
    200 after at most one assignment. *)
Lemma set_command_cases (chat : Z) (txt : string) :
  set_command ext chat txt = ret None
  \/ exists c : M unit,
       writes_once c
       /\ forall s, set_command ext chat txt s = bind c (fun _ => ret (Some 200)) s.
Proof.
  unfold set_command.
  destruct (startswith "/set " (lower txt)); [| now left].
  destruct (split txt) as [| a [| b [| c [| d [| e l]]]]]; try now left.
  right. destruct (py_float c) as [size |]; [destruct (py_float d) as [profit |] |].
  - exists (bind (set_preset (upper b)
                    {| order_size := size; min_profit_pct := (profit / 100)%float |})
              (fun _ => notify ext chat (PresetSaved (upper b) size profit))).
    split; [| intros s; symmetry; apply bind_bind].
    apply writes_once_set_preset. frames.
  - exists (notify ext chat Usage).
    split; [| reflexivity]. apply writes_once_of_frame. frames.
  - exists (notify ext chat Usage).
    split; [| reflexivity]. apply writes_once_of_frame. frames.
Qed.

(** A request to [/telegram] assigns to at most one key of [presets]. *)
Lemma writes_once_telegram_config (settings : Settings) (u : Update) :
  writes_once (telegram_config settings ext u).
Proof.
  unfold telegram_config. cbv zeta.
  destruct (negb _); [apply writes_once_of_frame; frames |].
  destruct (startswith "/setsecret " _); [apply writes_once_of_frame; frames |].
  destruct (_ =? "/getsecret")%string; [apply writes_once_of_frame; frames |].
  destruct (set_command_cases (chat_id u) (text_of u)) as [E | [c [Hc E]]].
  - rewrite E. eapply writes_once_ext; [intros s; apply bind_ret |].
    apply writes_once_then_frame; [apply writes_once_dialogue |].
    intros [status |]; [apply frame_ret | apply frame_show_or_help].
  - eapply writes_once_ext.
    { intros s. unfold bind at 1. rewrite E. fold (bind (bind c (fun _ => ret (Some 200)))
        (fun r => match r with
                  | Some status => ret status
                  | None =>
                      bind (dialogue ext (chat_id u) (text_of u))
                        (fun r' => match r' with
                                   | Some status => ret status
                                   | None => show_or_help ext (chat_id u) (text_of u)
                                   end)
                  end) s).
      apply bind_bind. }
    apply writes_once_then_frame; [exact Hc |]. frames.
Qed.

End HandlerFrames.

(** C8, as the code has it. A request to [/telegram] assigns to at most one
    ticker of the registry: the tickers stay distinct, the ticker written
    holds the preset written last, and every other ticker keeps its preset.
    The one-shot [/set TICKER SIZE PROFIT] writes
    [{order_size: SIZE, min_profit_pct: PROFIT/100}] under the upper-cased
    ticker, and the last step of a session writes the size and the profit
    entered under the session's ticker. The size is stored as [float] read
    it: nothing compares it with zero. *)
Theorem registry_one_preset_per_ticker
    (settings : Settings) (ext : Collaborators) (u : Update) (st : State) :
  let st' := final (telegram_config settings ext u st) in
  (NoDup (keys (presets st)) -> NoDup (keys (presets st')))
  /\ (presets st' = presets st
      \/ exists (ticker : ustring) (p : Preset),
           presets st' = dict_set ustring_eqb ticker p (presets st)
           /\ dict_get ustring_eqb ticker (presets st') = Some p
           /\ forall t : ustring,
                t <> ticker ->
                dict_get ustring_eqb t (presets st') = dict_get ustring_eqb t (presets st))
  /\ (forall (c t sz pf : string) (size profit : float),
        (str_of_int (chat_id u) =? TELEGRAM_CHAT_ID settings)%string = true ->
        startswith "/set " (lower (text_of u)) = true ->
        split (text_of u) = [c; t; sz; pf] ->
        py_float sz = Some size ->
        py_float pf = Some profit ->
        presets st'
        = dict_set ustring_eqb (upper t)
            {| order_size := size; min_profit_pct := (profit / 100)%float |}
            (presets st))
  /\ (forall (sess : Session) (ticker : ustring) (size profit : float),
        (str_of_int (chat_id u) =? TELEGRAM_CHAT_ID settings)%string = true ->
        dict_get Z.eqb (chat_id u) (user_states st) = Some sess ->
        reaches_dialogue (text_of u) = true ->
        s_step sess = StepProfit ->
        s_ticker sess = Some ticker ->
        s_order_size sess = Some size ->
        py_float (text_of u) = Some profit ->
        presets st'
        = dict_set ustring_eqb ticker
            {| order_size := size; min_profit_pct := (profit / 100)%float |}
            (presets st)).
Proof.
  intros st'.
  assert (Hw : presets st' = presets st
               \/ exists t p, presets st' = dict_set ustring_eqb t p (presets st))
    by apply (writes_once_telegram_config ext settings u st).
  split; [| split; [| split]].
  - intros Hnd. destruct Hw as [-> | [t [p ->]]]; [exact Hnd |].
    now apply (NoDup_keys_dict_set ustring_eqb ustring_eqb_spec).
  - destruct Hw as [E | [t [p E]]]; [now left |].
    right. exists t, p. rewrite E. repeat split.
    + apply (dict_get_set_same ustring_eqb ustring_eqb_spec).
    + intros t0 Hne. now apply (dict_get_set_other ustring_eqb ustring_eqb_spec).
  - intros c t sz pf size profit Hauth Hset Hsplit Hsize Hprofit. unfold st'.
    rewrite (telegram_config_one_shot settings ext u st Hauth c t sz pf size profit
               Hset Hsplit Hsize Hprofit).
    now rewrite final_notified.
  - intros sess ticker size profit Hauth Hsess Hdirect Hstep Hticker Hsize Hprofit.
    unfold st'.
    rewrite (telegram_config_profit settings ext u st Hauth sess Hsess Hdirect
               ticker size profit Hstep Hticker Hsize Hprofit).
    now destruct (send_message ext (chat_id u) (Saved ticker size profit)).
Qed.

(** C8 as stated fails: the one-shot [/set AAPL -5 3] is accepted and writes
    an order size of -5 into an empty registry, and a session that is given
    the size 0 writes an order size of zero. *)
Lemma nonpositive_order_size_counterexample :
  presets (final (telegram_config Sample.settings Sample.ext
                    (message 42 "/set AAPL -5 3") Sample.empty))
  = [(ustr "AAPL", {| order_size := (-5); min_profit_pct := (3 / 100)%float |})]
  /\ py_gt (-5) 0 = false
  /\ presets (run_updates Sample.settings Sample.ext
                (map (message 42) ["/set"; "AAPL"; "0"; "5"]) Sample.empty)
     = [(ustr "AAPL", {| order_size := 0; min_profit_pct := (5 / 100)%float |})]
  /\ py_gt 0 0 = false.
Proof.
  split; [| split; [| split]]; vm_compute; reflexivity.
Qed.

(** ** The trade block and its effects *)

Section Trade.

Variable settings : Settings.
Variable ext : Collaborators.
Variable cfg : Preset.
Variable ticker : ustring.
Variable price : float.
Variable chat : Z.
Variable st : State.

Hypothesis operator : py_int (TELEGRAM_CHAT_ID settings) = Some chat.
Hypothesis gateway_takes_orders :
  forall side qty p, placeOrder ext ticker side qty p = Ok tt.
Hypothesis telegram_delivers : forall m, send_message ext chat m = Ok tt.

(** For a bound signal, lines 142-155 place the order their test decides
    and tell the operator, once the gateway has answered what the test
    reads. *)
Lemma trade_buy_follows_decide (avs : list AccountValue) (cash qty p : float) :
  accountValues ext = Ok avs ->
  available_funds avs = Ok cash ->
  decide_buy cfg price cash = Ok (PlaceBuy qty p) ->
  trade settings ext "BUY" cfg ticker price st
  = {| result := Ok tt; final := st;
       effects := [Order ticker BUY qty p; Sent chat (BuyPlaced ticker qty p)] |}.
Proof.
  intros Hav Hcash Hd.
  unfold trade. cbn [String.eqb Ascii.eqb Bool.eqb andb].
  exec. rewrite Hav. exec. rewrite Hcash. exec. rewrite Hd. exec.
  unfold place_order. exec. rewrite gateway_takes_orders. exec.
  unfold notify_operator, notify. exec. rewrite operator. exec.
  rewrite telegram_delivers. exec. reflexivity.
Qed.

Lemma trade_sell_follows_decide (pos : option Position) (pnl qty p : float) :
  ib_position ext ticker = Ok pos ->
  ib_pnl_unrealizedPNL ext ticker = Ok pnl ->
  decide_sell cfg price pos pnl = Ok (PlaceSell qty p) ->
  trade settings ext "SELL" cfg ticker price st
  = {| result := Ok tt; final := st;
       effects := [Order ticker SELL qty p; Sent chat (SellPlaced ticker pnl)] |}.
Proof.
  intros Hpos Hpnl Hd.
  unfold trade. cbn [String.eqb Ascii.eqb Bool.eqb andb].
  exec. rewrite Hpos. exec. rewrite Hpnl. exec. rewrite Hd. exec.
  unfold place_order. exec. rewrite gateway_takes_orders. exec.
  unfold notify_operator, notify. exec. rewrite operator. exec.
  rewrite telegram_delivers. exec. reflexivity.
Qed.

End Trade.

(** ** What the webhook handler leaves alone *)

Section Readonly.

Context {A B : Type}.

Lemma readonly_ret (a : A) : readonly (ret a).
Proof. intros s. reflexivity. Qed.

Lemma readonly_raise (e : exn) : readonly (@raise A e).
Proof. intros s. reflexivity. Qed.

Lemma readonly_lift (r : pyresult A) : readonly (lift r).
Proof. intros s. reflexivity. Qed.

Lemma readonly_gets (f : State -> A) : readonly (gets f).
Proof. intros s. reflexivity. Qed.

Lemma readonly_bind (c : M A) (k : A -> M B) :
  readonly c -> (forall a, readonly (k a)) -> readonly (bind c k).
Proof.
  intros Hc Hk s. unfold bind. specialize (Hc s).
  destruct (c s) as [[a | e] s1 e1]; cbn [final] in *; [| exact Hc].
  specialize (Hk a s1). destruct (k a s1) as [r s2 e2]. cbn [final] in *.
  congruence.
Qed.

End Readonly.

Lemma readonly_emit (ev : Event) : readonly (emit ev).
Proof. intros s. reflexivity. Qed.

Ltac readonly_steps :=
  repeat first
    [ apply readonly_ret | apply readonly_raise | apply readonly_lift
    | apply readonly_gets | apply readonly_emit | apply readonly_bind
    | lazymatch goal with
      | |- readonly _ => fail
      | |- forall _, _ => intro
      end ].

Section WebhookReadonly.

Variable settings : Settings.
Variable ext : Collaborators.

Lemma readonly_notify_operator (m : Message) : readonly (notify_operator settings ext m).
Proof. unfold notify_operator, notify. readonly_steps. Qed.

Lemma readonly_place_order (symbol : ustring) (side : Side) (qty p : float) :
  readonly (place_order ext symbol side qty p).
Proof. unfold place_order. readonly_steps. Qed.

Lemma readonly_trade (signal : string) (cfg : Preset) (ticker : ustring) (p : float) :
  readonly (trade settings ext signal cfg ticker p).
Proof.
  unfold trade. destruct (signal =? "BUY")%string; readonly_steps;
    match goal with
    | |- readonly (match ?d with _ => _ end) => destruct d
    end;
    readonly_steps;
    first [apply readonly_notify_operator | apply readonly_place_order].
Qed.

(** X2. No request to [/webhook] changes the secret, the presets or the
    sessions, whatever it carries and whatever the collaborators answer. *)
Theorem webhook_leaves_state (req : WebhookRequest) (st : State) :
  final (webhook settings ext req st) = st.
Proof.
  revert st. change (readonly (webhook settings ext req)).
  unfold webhook. readonly_steps.
  match goal with |- readonly (if ?b then _ else _) => destruct b end;
    readonly_steps.
  match goal with |- readonly (match ?c with _ => _ end) => destruct c end;
    readonly_steps;
    first [apply readonly_notify_operator | apply readonly_trade].
Qed.

End WebhookReadonly.

(** ** The webhook handler as written places no order *)

Section Orderless.

Context {A B : Type}.

Lemma orderless_ret (a : A) : orderless (ret a).
Proof. intros s. reflexivity. Qed.

Lemma orderless_raise (e : exn) : orderless (@raise A e).
Proof. intros s. reflexivity. Qed.

Lemma orderless_lift (r : pyresult A) : orderless (lift r).
Proof. intros s. now destruct r. Qed.

Lemma orderless_gets (f : State -> A) : orderless (gets f).
Proof. intros s. reflexivity. Qed.

Lemma orderless_bind (c : M A) (k : A -> M B) :
  orderless c -> (forall a, orderless (k a)) -> orderless (bind c k).
Proof.
  intros Hc Hk s. unfold bind. specialize (Hc s).
  destruct (c s) as [[a | e] s1 e1]; cbn [effects] in *; [| exact Hc].
  specialize (Hk a s1). destruct (k a s1) as [r s2 e2]. cbn [effects] in *.
  now rewrite filter_app, Hc, Hk.
Qed.

(** A step that raises ends the request: what follows it is not run. *)
Lemma orderless_bind_lift_raise (e : exn) (k : A -> M B) :
  orderless (bind (lift (Raise e)) k).
Proof. intros s. now rewrite bind_lift_raise. Qed.

End Orderless.

Lemma orderless_sent (chat : Z) (m : Message) : orderless (emit (Sent chat m)).
Proof. intros s. reflexivity. Qed.

Ltac orderless_steps :=
  repeat first
    [ apply orderless_ret | apply orderless_raise | apply orderless_lift
    | apply orderless_gets | apply orderless_sent
    | apply orderless_bind_lift_raise | apply orderless_bind
    | lazymatch goal with
      | |- orderless _ => fail
      | |- forall _, _ => intro
      end ].

(** X3. As it is written, [webhook] hands no order to the gateway, whatever
    the request, the registry and the answers of the collaborators: every
    path ends before line 146 or line 152 is reached. The only effects of a
    request are notifications. *)
Theorem webhook_places_no_order
    (settings : Settings) (ext : Collaborators) (req : WebhookRequest) (st : State) :
  filter is_order (effects (webhook settings ext req st)) = [].
Proof.
  revert st. change (orderless (webhook settings ext req)).
  unfold webhook, notify_operator, notify. orderless_steps.
  match goal with |- orderless (if ?b then _ else _) => destruct b end;
    orderless_steps.
  match goal with |- orderless (match ?c with _ => _ end) => destruct c end;
    orderless_steps.
Qed.

(** ** Orders are placed on a decision only *)

Section TradeSafety.

Variable settings : Settings.
Variable ext : Collaborators.
Variable cfg : Preset.
Variable ticker : ustring.
Variable p : float.
Variable st : State.

(** What [notify_operator] adds to the effects: one message, or nothing. *)
Lemma notify_operator_effects (m : Message) :
  filter is_order (effects (notify_operator settings ext m st)) = [].
Proof.
  unfold notify_operator, notify.
  destruct (py_int (TELEGRAM_CHAT_ID settings)) as [chat |]; exec; [| reflexivity].
  destruct (send_message ext chat m) as [[] | e]; exec; reflexivity.
Qed.

Lemma bind_place_order {B} (side : Side) (qty price : float) (k : unit -> M B) (s : State) :
  bind (place_order ext ticker side qty price) k s
  = match placeOrder ext ticker side qty price with
    | Ok _ => after [Order ticker side qty price] (k tt s)
    | Raise e => {| result := Raise e; final := s; effects := [] |}
    end.
Proof.
  unfold place_order. rewrite bind_bind.
  destruct (placeOrder ext ticker side qty price) as [[] | e].
  - rewrite bind_lift_ok. apply bind_emit.
  - apply bind_lift_raise.
Qed.

Lemma run_as_bind {A} (c : M A) (s : State) : c s = bind c ret s.
Proof.
  unfold bind, ret. destruct (c s) as [[a | e] s1 e1]; [| reflexivity].
  now rewrite app_nil_r.
Qed.

(** X4. Lines 142-148, run with [signal] bound to BUY, hand an order to the
    gateway only for the ticker of the request, at the last price, for the
    quantity [order_size / price], and only when the gateway reported
    available funds that reach the order size; at most one order is
    placed. *)
Theorem trade_buy_order_needs_funds (sym : ustring) (side : Side) (qty price : float) :
  In (Order sym side qty price)
     (effects (trade settings ext "BUY" cfg ticker p st)) ->
  sym = ticker /\ side = BUY /\ price = p
  /\ qty = (order_size cfg / p)%float
  /\ (exists (avs : list AccountValue) (cash : float),
        accountValues ext = Ok avs
        /\ available_funds avs = Ok cash
        /\ py_ge cash (order_size cfg) = true)
  /\ filter is_order (effects (trade settings ext "BUY" cfg ticker p st))
     = [Order sym side qty price].
Proof.
  unfold trade. cbn [String.eqb Ascii.eqb Bool.eqb andb].
  destruct (accountValues ext) as [avs | e] eqn:Hav; exec; [| intros []].
  destruct (available_funds avs) as [cash | e] eqn:Hcash; exec; [| intros []].
  unfold decide_buy, py_div.
  destruct (is_zero p); cbn [pybind]; exec; [intros [] |].
  destruct (py_ge cash (order_size cfg)) eqn:Hge; exec.
  - rewrite (run_as_bind (bind _ _)), bind_bind, bind_place_order.
    destruct (placeOrder ext ticker BUY (order_size cfg / p)%float p);
      [| intros []].
    rewrite <- run_as_bind. unfold after. cbn [effects app filter is_order].
    rewrite notify_operator_effects.
    intros [[= <- <- <- <-] | Hin].
    + repeat split; eauto.
    + exfalso.
      assert (Hf : In (Order sym side qty price)
                     (filter is_order
                        (effects (notify_operator settings ext
                                    (BuyPlaced ticker (order_size cfg / p)%float p) st)))).
      { apply filter_In. now split. }
      now rewrite notify_operator_effects in Hf.
  - intros Hin. exfalso.
    assert (Hf : In (Order sym side qty price)
                   (filter is_order
                      (effects (notify_operator settings ext InsufficientFunds st)))).
    { apply filter_In. now split. }
    now rewrite notify_operator_effects in Hf.
Qed.

(** X5. Lines 149-155, run with [signal] bound to anything but BUY, hand
    an order to the gateway only for the ticker of the request, at the last
    price, for the whole position, and only when the gateway reported a
    position of positive quantity whose [pnl / (avgCost * position)] reaches
    the minimum profit of the preset; at most one order is placed. *)
Theorem trade_sell_order_needs_profit
    (signal : string) (sym : ustring) (side : Side) (qty price : float) :
  signal <> "BUY" ->
  In (Order sym side qty price)
     (effects (trade settings ext signal cfg ticker p st)) ->
  sym = ticker /\ side = SELL /\ price = p
  /\ (exists (q : Position) (pnl : float),
        ib_position ext ticker = Ok (Some q)
        /\ ib_pnl_unrealizedPNL ext ticker = Ok pnl
        /\ qty = position q
        /\ py_gt (position q) 0 = true
        /\ py_ge (pnl / (avgCost q * position q))%float (min_profit_pct cfg) = true)
  /\ filter is_order (effects (trade settings ext signal cfg ticker p st))
     = [Order sym side qty price].
Proof.
  intros Hne. apply String.eqb_neq in Hne. unfold trade. rewrite Hne.
  destruct (ib_position ext ticker) as [pos | e] eqn:Hpos; exec; [| intros []].
  destruct (ib_pnl_unrealizedPNL ext ticker) as [pnl | e] eqn:Hpnl; exec;
    [| intros []].
  assert (Hskip : forall m,
            In (Order sym side qty price)
               (effects (notify_operator settings ext m st)) -> False).
  { intros m Hin.
    assert (Hf : In (Order sym side qty price)
                   (filter is_order (effects (notify_operator settings ext m st))))
      by (apply filter_In; now split).
    now rewrite notify_operator_effects in Hf. }
  unfold decide_sell, py_div. destruct pos as [q |]; exec;
    [| intros Hin; now apply Hskip in Hin].
  destruct (py_gt (position q) 0) eqn:Hq; exec;
    [| intros Hin; now apply Hskip in Hin].
  destruct (is_zero (avgCost q * position q)%float); cbn [pybind]; exec;
    [intros [] |].
  destruct (py_ge (pnl / (avgCost q * position q))%float (min_profit_pct cfg))
    eqn:Hge; exec; [| intros Hin; now apply Hskip in Hin].
  rewrite (run_as_bind (bind _ _)), bind_bind, bind_place_order.
  destruct (placeOrder ext ticker SELL (position q) p); [| intros []].
  rewrite <- run_as_bind. unfold after. cbn [effects app filter is_order].
  rewrite notify_operator_effects.
  intros [[= <- <- <- <-] | Hin]; [| now apply Hskip in Hin].
  repeat split; eauto 10.
Qed.

End TradeSafety.

Lemma trade_buy_order_needs_funds_witness :
  filter is_order
    (effects (trade Sample.settings Sample.ext "BUY" Sample.aapl (ustr "AAPL") 100 Sample.empty))
  = [Order (ustr "AAPL") BUY 5 100].
Proof.
  assert (Hin : In (Order (ustr "AAPL") BUY 5 100)
                  (effects (trade Sample.settings Sample.ext "BUY" Sample.aapl (ustr "AAPL")
                              100 Sample.empty)))
    by (vm_compute; left; reflexivity).
  exact (proj2 (proj2 (proj2 (proj2 (proj2
           (trade_buy_order_needs_funds Sample.settings Sample.ext Sample.aapl (ustr "AAPL")
              100 Sample.empty (ustr "AAPL") BUY 5 100 Hin)))))).
Defined.

Lemma trade_sell_order_needs_profit_witness :
  filter is_order
    (effects (trade Sample.settings Sample.ext_holding "SELL" Sample.aapl (ustr "AAPL") 100
                Sample.empty))
  = [Order (ustr "AAPL") SELL 10 100].
Proof.
  assert (Hne : "SELL"%string <> "BUY"%string) by discriminate.
  assert (Hin : In (Order (ustr "AAPL") SELL 10 100)
                  (effects (trade Sample.settings Sample.ext_holding "SELL" Sample.aapl
                              (ustr "AAPL") 100 Sample.empty)))
    by (vm_compute; left; reflexivity).
  exact (proj2 (proj2 (proj2 (proj2
           (trade_sell_order_needs_profit Sample.settings Sample.ext_holding Sample.aapl
              (ustr "AAPL") 100 Sample.empty "SELL" (ustr "AAPL") SELL 10 100 Hne Hin))))).
Defined.

(** ** The configuration handler, command by command *)

(** A text that [float] accepts does not start with a slash, so it is none
    of the direct commands. *)
Lemma lower_char_slash (c : ascii) : lower_char c = "/"%char -> c = "/"%char.
Proof.
  destruct c as [[] [] [] [] [] [] [] []]; vm_compute; intros H;
    first [reflexivity | discriminate H].
Qed.

Lemma py_float_slash (r : string) : py_float (String "/" r) = None.
Proof.
  unfold py_float. cbn [drop_underscores is_underscore prev_is].
  change (is_underscore "/") with false. cbn [andb].
  change (N_of_ascii "/" =? 95)%N with false. cbv iota.
  destruct (drop_underscores (Some "/"%char) r) as [r' |]; [| reflexivity].
  cbn [option_map]. unfold strip_with. cbn [lstrip_with].
  change (isspace_num "/") with false. cbv iota.
  cbn [rstrip_with]. change (isspace_num "/") with false. cbn [andb].
  cbn [read_sign]. cbn [lower map_chars].
  reflexivity.
Qed.

Lemma py_float_reaches_dialogue (s : string) (x : float) :
  py_float s = Some x -> reaches_dialogue s = true.
Proof.
  destruct s as [| c r]; [reflexivity |]. intros H.
  assert (Hc : lower_char c <> "/"%char).
  { intros E. apply lower_char_slash in E. subst c.
    rewrite py_float_slash in H. discriminate H. }
  unfold reaches_dialogue, startswith. cbn [lower map_chars String.prefix String.eqb].
  destruct (ascii_dec "/" (lower_char c)) as [E | _]; [now symmetry in E |].
  apply Ascii.eqb_neq in Hc. now rewrite Hc.
Qed.

Section Commands.

Variable settings : Settings.
Variable ext : Collaborators.
Variable u : Update.
Variable st : State.

(** X6. A message from any chat but the configured one is answered 403
    before anything else is looked at: no notification, no change of the
    secret, the presets or the sessions, whatever its text. *)
Theorem telegram_config_unauthorised :
  (str_of_int (chat_id u) =? TELEGRAM_CHAT_ID settings)%string = false ->
  telegram_config settings ext u st
  = {| result := Ok 403; final := st; effects := [] |}.
Proof.
  intros H. unfold telegram_config. cbv zeta. now rewrite H.
Qed.

Hypothesis authorised :
  (str_of_int (chat_id u) =? TELEGRAM_CHAT_ID settings)%string = true.

(** X7. While a session waits for the size or for the profit, a text that
    [float] rejects (a command such as [/show] included, the direct commands
    apart) is answered with the number-only notice and changes nothing: the
    session stays at its step and the registry is untouched. *)
Theorem session_rejects_non_number (sess : Session) :
  dict_get Z.eqb (chat_id u) (user_states st) = Some sess ->
  s_step sess <> StepTicker ->
  reaches_dialogue (text_of u) = true ->
  py_float (text_of u) = None ->
  telegram_config settings ext u st = notified ext (chat_id u) NumberOnly st.
Proof.
  intros Hsess Hstep Hdirect Hfloat.
  rewrite (telegram_config_dialogue settings ext u st authorised Hdirect).
  unfold dialogue. exec. rewrite Hsess, Hfloat. unfold notified.
  destruct (s_step sess); [contradiction | |]; exec;
    (destruct (send_message ext (chat_id u) NumberOnly) as [[] | e] eqn:Hs;
     [ rewrite (bind_notify_ok _ _ ext _ _ Hs)
     | rewrite (bind_notify_raise _ _ ext _ _ e Hs) ];
     exec; reflexivity).
Qed.

(** X8. With no session open, [/show] lists the registry in insertion
    order, one line per preset with its ticker, its order size and its
    minimum profit times 100, or says that there are no presets; it changes
    nothing. *)
Theorem show_lists_presets_in_order :
  lower (text_of u) = "/show" ->
  dict_get Z.eqb (chat_id u) (user_states st) = None ->
  telegram_config settings ext u st
  = notified ext (chat_id u)
      (match presets st with
       | [] => NoPresets
       | _ =>
           PresetLines
             (map (fun tv => (fst tv, order_size (snd tv),
                              (min_profit_pct (snd tv) * 100)%float))
                  (presets st))
       end) st.
Proof.
  intros Hshow Hnone.
  assert (Hdirect : reaches_dialogue (text_of u) = true)
    by (unfold reaches_dialogue; now rewrite Hshow).
  rewrite (telegram_config_dialogue settings ext u st authorised Hdirect).
  unfold dialogue, show_or_help. exec. rewrite Hnone, Hshow.
  cbn [String.eqb Ascii.eqb Bool.eqb andb]. exec. unfold notified.
  destruct (presets st) as [| kv l];
    match goal with
    | |- context [notify ext ?c ?m] =>
        destruct (send_message ext c m) as [[] | e] eqn:Hs;
        [ rewrite (bind_notify_ok _ _ ext _ _ Hs)
        | rewrite (bind_notify_raise _ _ ext _ _ e Hs) ]
    end; exec; reflexivity.
Qed.

(** X9. The one-shot [/set] keeps the order of the registry: a ticker that
    already has a preset stays where it is listed, and a new ticker is listed
    last. *)
Theorem one_shot_keeps_listing_order (c t sz pf : string) (size profit : float) :
  startswith "/set " (lower (text_of u)) = true ->
  split (text_of u) = [c; t; sz; pf] ->
  py_float sz = Some size ->
  py_float pf = Some profit ->
  keys (presets (final (telegram_config settings ext u st)))
  = match dict_get ustring_eqb (upper t) (presets st) with
    | Some _ => keys (presets st)
    | None => keys (presets st) ++ [upper t]
    end.
Proof.
  intros Hset Hsplit Hsize Hprofit.
  rewrite (telegram_config_one_shot settings ext u st authorised c t sz pf size profit
             Hset Hsplit Hsize Hprofit).
  rewrite final_notified. cbn [presets].
  destruct (dict_get ustring_eqb (upper t) (presets st)) as [old |] eqn:E.
  - exact (keys_dict_set_present ustring_eqb _ _ old _ E).
  - exact (keys_dict_set_absent ustring_eqb _ _ _ E).
Qed.

End Commands.

Lemma telegram_config_unauthorised_witness :
  telegram_config Sample.settings Sample.ext (message 7 "/setsecret mine")
    Sample.awaiting_ticker
  = {| result := Ok 403; final := Sample.awaiting_ticker; effects := [] |}.
Proof.
  exact (telegram_config_unauthorised Sample.settings Sample.ext
           (message 7 "/setsecret mine") Sample.awaiting_ticker eq_refl).
Defined.

Lemma session_rejects_non_number_witness :
  telegram_config Sample.settings Sample.ext (message 42 "/show") Sample.awaiting_size
  = notified Sample.ext 42 NumberOnly Sample.awaiting_size.
Proof.
  assert (Hstep : StepSize <> StepTicker) by discriminate.
  exact (session_rejects_non_number Sample.settings Sample.ext (message 42 "/show")
           Sample.awaiting_size eq_refl
           {| s_step := StepSize; s_ticker := Some (ustr "TSLA"); s_order_size := None |}
           eq_refl Hstep eq_refl eq_refl).
Defined.

Lemma show_lists_presets_in_order_witness :
  telegram_config Sample.settings Sample.ext (message 42 " /Show ")
    Sample.msft_registered
  = notified Sample.ext 42 (PresetLines [((ustr "MSFT"), 500, 0.1 * 100)])%float
      Sample.msft_registered.
Proof.
  exact (show_lists_presets_in_order Sample.settings Sample.ext (message 42 " /Show ")
           Sample.msft_registered eq_refl eq_refl eq_refl).
Defined.

Lemma one_shot_keeps_listing_order_witness :
  keys (presets (final (telegram_config Sample.settings Sample.ext
                          (message 42 "/set tsla 10 5") Sample.msft_registered)))
  = [(ustr "MSFT"); (ustr "TSLA")].
Proof.
  assert (Hsz : py_float "10" = Some 10%float) by (vm_compute; reflexivity).
  assert (Hpf : py_float "5" = Some 5%float) by (vm_compute; reflexivity).
  exact (one_shot_keeps_listing_order Sample.settings Sample.ext
           (message 42 "/set tsla 10 5") Sample.msft_registered eq_refl
           "/set" "tsla" "10" "5" 10%float 5%float eq_refl eq_refl Hsz Hpf).
Defined.

(** A one-shot [/set] for the ticker text with a sharp s replaces the preset
    of STRASSE and adds no key. *)
Example one_shot_sharp_s_replaces :
  presets (final (telegram_config Sample.settings Sample.ext
                    (message 42 ("/set " ++ Sample.strasse ++ " 1 1"))
                    {| webhook_secret := "s3cret";
                       presets := [(ustr "STRASSE", Sample.aapl)];
                       user_states := [] |}))
  = [(ustr "STRASSE", {| order_size := 1; min_profit_pct := (1 / 100)%float |})].
Proof. vm_compute. reflexivity. Qed.

(** X10. The interactive session on any inputs. With no session open, the
    messages [/set], a ticker text that is not a direct command, a size and
    a profit that [float] accepts, each delivered and answered, write
    [{order_size: size, min_profit_pct: profit / 100}] under the stripped,
    upper-cased ticker text, close the session and change nothing else: the
    registry is the one the one-shot [/set] writes. *)
Theorem interactive_session_any_inputs
    (settings : Settings) (ext : Collaborators) (chat : Z) (st : State)
    (t sz pf : string) (size profit : float) :
  (str_of_int chat =? TELEGRAM_CHAT_ID settings)%string = true ->
  (forall m : Message, send_message ext chat m = Ok tt) ->
  dict_get Z.eqb chat (user_states st) = None ->
  reaches_dialogue (strip t) = true ->
  py_float (strip sz) = Some size ->
  py_float (strip pf) = Some profit ->
  run_updates settings ext (map (message chat) ["/set"; t; sz; pf]) st
  = {| webhook_secret := webhook_secret st;
       presets :=
         dict_set ustring_eqb (upper (strip t))
           {| order_size := size; min_profit_pct := (profit / 100)%float |}
           (presets st);
       user_states := user_states st |}.
Proof.
  intros Hauth Hsend Hnone Ht Hsz Hpf. cbn [run_updates map].
  rewrite (telegram_config_opens settings ext (message chat "/set") st Hauth
             eq_refl Hnone).
  rewrite final_notified.
  erewrite (telegram_config_ticker settings ext (message chat t));
    [ | exact Hauth
      | cbn [user_states chat_id message]; apply (dict_get_set_same Z.eqb Z_eqb_spec)
      | exact Ht | reflexivity ].
  rewrite final_notified.
  erewrite (telegram_config_size settings ext (message chat sz));
    [ | exact Hauth
      | cbn [user_states chat_id message]; apply (dict_get_set_same Z.eqb Z_eqb_spec)
      | exact (py_float_reaches_dialogue _ _ Hsz) | reflexivity | exact Hsz ].
  rewrite final_notified.
  erewrite (telegram_config_profit settings ext (message chat pf));
    [ | exact Hauth
      | cbn [user_states chat_id message]; apply (dict_get_set_same Z.eqb Z_eqb_spec)
      | exact (py_float_reaches_dialogue _ _ Hpf)
      | reflexivity | reflexivity | reflexivity | exact Hpf ].
  rewrite Hsend. cbn [final user_states presets webhook_secret chat_id message].
  rewrite !(dict_set_set Z.eqb Z_eqb_spec).
  rewrite (dict_pop_set_absent Z.eqb Z_eqb_spec _ _ _ Hnone).
  reflexivity.
Qed.

Lemma interactive_session_any_inputs_witness :
  run_updates Sample.settings Sample.ext
    (map (message 42) ["/set"; " tsla "; "1e3"; "2.5"]) Sample.msft_registered
  = {| webhook_secret := "s3cret";
       presets := [((ustr "MSFT"), Sample.aapl);
                   ((ustr "TSLA"), {| order_size := 1000;
                               min_profit_pct := (2.5 / 100)%float |})];
       user_states := [] |}.
Proof.
  assert (Hsz : py_float (strip "1e3") = Some 1000%float) by (vm_compute; reflexivity).
  assert (Hpf : py_float (strip "2.5") = Some 2.5%float) by (vm_compute; reflexivity).
  exact (interactive_session_any_inputs Sample.settings Sample.ext 42
           Sample.msft_registered " tsla " "1e3" "2.5" 1000%float 2.5%float
           eq_refl (fun m => eq_refl) eq_refl eq_refl Hsz Hpf).
Defined.

(** ** Rotating the secret *)

Section Strip.

Variable sp : ascii -> bool.

Lemma rstrip_with_idempotent (s : string) :
  rstrip_with sp (rstrip_with sp s) = rstrip_with sp s.
Proof.
  induction s as [| c r IH]; [reflexivity |]. cbn [rstrip_with].
  destruct (sp c && is_empty (rstrip_with sp r)) eqn:E; [reflexivity |].
  cbn [rstrip_with]. now rewrite IH, E.
Qed.

Lemma rstrip_with_fixed_tail (c : ascii) (r : string) :
  rstrip_with sp (String c r) = String c r ->
  rstrip_with sp r = r /\ (sp c = true -> r <> EmptyString).
Proof.
  cbn [rstrip_with].
  destruct (sp c && is_empty (rstrip_with sp r)) eqn:E; [discriminate |].
  intros [= H]. split; [exact H |].
  intros Hc Hr. rewrite H, Hc, Hr in E. discriminate E.
Qed.

(** A text that does not end with a blank, and is not empty, does not
    consist of blanks. *)
Lemma lstrip_with_not_empty (s : string) :
  rstrip_with sp s = s -> s <> EmptyString -> lstrip_with sp s <> EmptyString.
Proof.
  induction s as [| c r IH]; [easy |]. intros Hfix _.
  destruct (rstrip_with_fixed_tail c r Hfix) as [Hr Hne].
  cbn [lstrip_with]. destruct (sp c); [| discriminate]. now apply IH, Hne.
Qed.

End Strip.

Lemma strip_fixed (s : string) : rstrip_with isspace (strip s) = strip s.
Proof. apply rstrip_with_idempotent. Qed.

Lemma isspace_lower_char (c : ascii) : isspace c = true -> lower_char c = c.
Proof.
  destruct c as [[] [] [] [] [] [] [] []]; vm_compute; intros H;
    first [reflexivity | discriminate H].
Qed.

Lemma lower_char_not_space (c d : ascii) :
  d = lower_char c -> isspace d = false -> isspace c = false.
Proof.
  intros -> H. destruct (isspace c) eqn:E; [| reflexivity].
  now rewrite (isspace_lower_char c E), E in H.
Qed.

Lemma lower_char_blank (c : ascii) : " "%char = lower_char c -> c = " "%char.
Proof.
  destruct c as [[] [] [] [] [] [] [] []]; vm_compute; intros H;
    first [reflexivity | discriminate H].
Qed.

(** Line 55 never fails: a stripped text that starts with [/setsecret] and a
    blank has a second field, the text after the command and the blanks that
    follow it, and this field is not empty. *)
Lemma setsecret_argument (txt : string) :
  rstrip_with isspace txt = txt ->
  startswith "/setsecret " (lower txt) = true ->
  exists cmd rest : string,
    txt = (cmd ++ String " " rest)%string
    /\ lower cmd = "/setsecret"
    /\ lstrip_with isspace rest <> EmptyString
    /\ split_maxsplit1 txt = [cmd; lstrip_with isspace rest].
Proof.
  unfold startswith. intros Hfix H.
  do 11 (destruct txt as [| ?c txt]; [discriminate H |];
         cbn [lower map_chars String.prefix] in H;
         match type of H with
         | (if ?d then _ else _) = true =>
             destruct d as [?E | ?E]; [| discriminate H]
         end).
  clear H. apply lower_char_blank in E9. subst c9.
  assert (Hrest : lstrip_with isspace txt <> EmptyString).
  { do 10 (apply rstrip_with_fixed_tail in Hfix; destruct Hfix as [Hfix _]).
    apply rstrip_with_fixed_tail in Hfix. destruct Hfix as [Hfix Hne].
    apply lstrip_with_not_empty; [exact Hfix | now apply Hne]. }
  exists (String c (String c0 (String c1 (String c2 (String c3 (String c4
            (String c5 (String c6 (String c7 (String c8 EmptyString)))))))))), txt.
  repeat split.
  - cbn [lower map_chars]. congruence.
  - exact Hrest.
  - unfold split_maxsplit1. cbn [lstrip_with].
    rewrite (lower_char_not_space c _ E eq_refl). cbn [is_empty span_token].
    rewrite (lower_char_not_space c _ E eq_refl),
            (lower_char_not_space c0 _ E0 eq_refl),
            (lower_char_not_space c1 _ E1 eq_refl),
            (lower_char_not_space c2 _ E2 eq_refl),
            (lower_char_not_space c3 _ E3 eq_refl),
            (lower_char_not_space c4 _ E4 eq_refl),
            (lower_char_not_space c5 _ E5 eq_refl),
            (lower_char_not_space c6 _ E6 eq_refl),
            (lower_char_not_space c7 _ E7 eq_refl),
            (lower_char_not_space c8 _ E8 eq_refl).
    change (isspace " ") with true. cbv iota. cbn [lstrip_with].
    change (isspace " ") with true. cbv iota.
    destruct (lstrip_with isspace txt); [contradiction | reflexivity].
Qed.

Section Secret.

Variable settings : Settings.
Variable ext : Collaborators.
Variable u : Update.
Variable st : State.

Hypothesis authorised :
  (str_of_int (chat_id u) =? TELEGRAM_CHAT_ID settings)%string = true.

Lemma telegram_config_setsecret (cmd secret : string) :
  startswith "/setsecret " (lower (text_of u)) = true ->
  split_maxsplit1 (text_of u) = [cmd; secret] ->
  telegram_config settings ext u st
  = notified ext (chat_id u) SecretUpdated
      {| webhook_secret := secret;
         presets := presets st;
         user_states := user_states st |}.
Proof.
  intros Hcmd Hsplit. unfold telegram_config. cbv zeta.
  rewrite authorised, Hcmd, Hsplit. cbn [negb nth_error].
  unfold set_webhook_secret. exec. unfold notified.
  destruct (send_message ext (chat_id u) SecretUpdated) as [[] | e] eqn:Hs;
    [ rewrite (bind_notify_ok _ _ ext _ _ Hs)
    | rewrite (bind_notify_raise _ _ ext _ _ e Hs) ];
    exec; reflexivity.
Qed.

Lemma telegram_config_getsecret :
  lower (text_of u) = "/getsecret" ->
  telegram_config settings ext u st
  = notified ext (chat_id u) (CurrentSecret (webhook_secret st)) st.
Proof.
  intros Hcmd. unfold telegram_config. cbv zeta.
  rewrite authorised, Hcmd. cbn [negb startswith String.prefix].
  cbn. exec. unfold notified.
  destruct (send_message ext (chat_id u) (CurrentSecret (webhook_secret st)))
    as [[] | e] eqn:Hs;
    [ rewrite (bind_notify_ok _ _ ext _ _ Hs)
    | rewrite (bind_notify_raise _ _ ext _ _ e Hs) ];
    exec; reflexivity.
Qed.

(** X11. [/setsecret] never fails on its argument and always rotates. For an
    authorised text that starts with [/setsecret] and a blank, in any case,
    the secret becomes the text after the command and the blanks that follow
    it, which is never empty; the presets and the sessions are kept, an open
    session included; and the rotation stands even when the confirmation
    cannot be sent. *)
Theorem setsecret_rotates :
  startswith "/setsecret " (lower (text_of u)) = true ->
  exists cmd rest : string,
    text_of u = (cmd ++ String " " rest)%string
    /\ lower cmd = "/setsecret"
    /\ lstrip_with isspace rest <> EmptyString
    /\ telegram_config settings ext u st
       = notified ext (chat_id u) SecretUpdated
           {| webhook_secret := lstrip_with isspace rest;
              presets := presets st;
              user_states := user_states st |}
    /\ final (telegram_config settings ext u st)
       = {| webhook_secret := lstrip_with isspace rest;
            presets := presets st;
            user_states := user_states st |}.
Proof.
  intros Hcmd.
  destruct (setsecret_argument (text_of u) (strip_fixed _) Hcmd)
    as [cmd [rest [Htxt [Hlow [Hne Hsplit]]]]].
  exists cmd, rest. repeat split; try assumption.
  - exact (telegram_config_setsecret cmd _ Hcmd Hsplit).
  - rewrite (telegram_config_setsecret cmd _ Hcmd Hsplit). apply final_notified.
Qed.

End Secret.

Lemma setsecret_rotates_witness :
  exists cmd rest : string,
    text_of (message 42 "/SetSecret  n3w ") = (cmd ++ String " " rest)%string
    /\ lower cmd = "/setsecret"
    /\ lstrip_with isspace rest <> EmptyString
    /\ telegram_config Sample.settings Sample.ext_telegram_down
         (message 42 "/SetSecret  n3w ") Sample.awaiting_ticker
       = notified Sample.ext_telegram_down 42 SecretUpdated
           {| webhook_secret := lstrip_with isspace rest;
              presets := presets Sample.awaiting_ticker;
              user_states := user_states Sample.awaiting_ticker |}
    /\ final (telegram_config Sample.settings Sample.ext_telegram_down
                (message 42 "/SetSecret  n3w ") Sample.awaiting_ticker)
       = {| webhook_secret := lstrip_with isspace rest;
            presets := presets Sample.awaiting_ticker;
            user_states := user_states Sample.awaiting_ticker |}.
Proof.
  exact (setsecret_rotates Sample.settings Sample.ext_telegram_down
           (message 42 "/SetSecret  n3w ") Sample.awaiting_ticker eq_refl eq_refl).
Defined.

(** X12. A rotation takes effect at once on both handlers. After an
    authorised [/setsecret], [/getsecret] reports the new secret, the
    webhook verifies the HMAC of a payload under the new secret, and it
    aborts with 403 on every other ASCII signature, the HMAC under the old
    secret included when it differs. *)
Theorem rotated_secret_is_enforced
    (settings : Settings) (ext : Collaborators) (u u' : Update) (st : State)
    (cmd secret : string) :
  (str_of_int (chat_id u) =? TELEGRAM_CHAT_ID settings)%string = true ->
  startswith "/setsecret " (lower (text_of u)) = true ->
  split_maxsplit1 (text_of u) = [cmd; secret] ->
  let st' := final (telegram_config settings ext u st) in
  webhook_secret st' = secret
  /\ ((str_of_int (chat_id u') =? TELEGRAM_CHAT_ID settings)%string = true ->
      lower (text_of u') = "/getsecret" ->
      telegram_config settings ext u' st'
      = notified ext (chat_id u') (CurrentSecret secret) st')
  /\ (forall body : list byte,
        verify (webhook_secret st') body (expected_signature secret body) = Ok true)
  /\ (forall req : WebhookRequest,
        isascii (signature_of req) = true ->
        signature_of req <> expected_signature secret (payload req) ->
        webhook settings ext req st'
        = {| result := Raise (HTTPException 403); final := st'; effects := [] |}).
Proof.
  intros Hauth Hcmd Hsplit st'.
  assert (Hsecret : webhook_secret st' = secret).
  { unfold st'.
    rewrite (telegram_config_setsecret settings ext u st Hauth cmd secret Hcmd Hsplit).
    now rewrite final_notified. }
  split; [exact Hsecret | split; [| split]].
  - intros Hauth' Hget.
    rewrite (telegram_config_getsecret settings ext u' st' Hauth' Hget).
    now rewrite Hsecret.
  - intros body. rewrite Hsecret, verify_unfold, expected_signature_isascii.
    now rewrite String.eqb_refl.
  - intros req Hascii Hne. apply webhook_verify_false.
    rewrite Hsecret, verify_unfold, Hascii.
    apply String.eqb_neq in Hne. now rewrite Hne.
Qed.

Lemma rotated_secret_is_enforced_witness :
  webhook_secret (final (telegram_config Sample.settings Sample.ext
                           (message 42 "/SetSecret  n3w ") Sample.empty))
  = "n3w".
Proof.
  exact (proj1 (rotated_secret_is_enforced Sample.settings Sample.ext
                  (message 42 "/SetSecret  n3w ") (message 42 "/getsecret")
                  Sample.empty "/SetSecret" "n3w" eq_refl eq_refl eq_refl)).
Defined.

(** ** Every configuration request is answered once *)

Section Sessions.

Lemma session_wf_lookup (st : State) (chat : Z) (sess : Session) :
  sessions_wf st ->
  dict_get Z.eqb chat (user_states st) = Some sess ->
  session_wf sess.
Proof.
  unfold sessions_wf. induction (user_states st) as [| [k x] r IH];
    cbn [dict_get]; [discriminate |].
  intros Hwf. inversion Hwf as [| ? ? Hx Hr]; subst.
  destruct (chat =? k)%Z; [intros [= <-]; exact Hx | now apply IH].
Qed.

Lemma Forall_dict_set {K V : Type} (eqb : K -> K -> bool) (P : K * V -> Prop)
    (k : K) (v : V) (d : list (K * V)) :
  (forall k', P (k', v)) -> Forall P d -> Forall P (dict_set eqb k v d).
Proof.
  intros Hv. induction d as [| [k' v'] r IH]; cbn [dict_set]; intros Hd.
  - repeat constructor. apply Hv.
  - inversion Hd; subst. destruct (eqb k k'); constructor; auto.
Qed.

Lemma Forall_dict_pop {K V : Type} (eqb : K -> K -> bool) (P : K * V -> Prop)
    (k : K) (d : list (K * V)) :
  Forall P d -> Forall P (dict_pop eqb k d).
Proof.
  induction d as [| [k' v'] r IH]; cbn [dict_pop]; intros Hd; [exact Hd |].
  inversion Hd; subst. destruct (eqb k k'); [assumption | constructor; auto].
Qed.

Variable settings : Settings.
Variable ext : Collaborators.
Variable u : Update.
Variable st : State.

Hypothesis authorised :
  (str_of_int (chat_id u) =? TELEGRAM_CHAT_ID settings)%string = true.

Ltac send_cases :=
  unfold notified;
  match goal with
  | |- context [notify ext ?c ?m] =>
      let Hs := fresh "Hs" in
      destruct (send_message ext c m) as [[] | ?e] eqn:Hs;
      [ rewrite (bind_notify_ok _ _ ext _ _ Hs)
      | rewrite (bind_notify_raise _ _ ext _ _ _ Hs) ]
  end; exec; reflexivity.

(** Lines 72-74: four tokens, one of which [float] rejects. *)
Lemma telegram_config_usage (c t sz pf : string) :
  startswith "/set " (lower (text_of u)) = true ->
  split (text_of u) = [c; t; sz; pf] ->
  py_float sz = None \/ py_float pf = None ->
  telegram_config settings ext u st = notified ext (chat_id u) Usage st.
Proof.
  intros Hset Hsplit Hbad.
  destruct (set_prefix_excludes _ Hset) as [H1 H2].
  unfold telegram_config. cbv zeta. rewrite authorised, H1, H2. cbn [negb].
  unfold set_command. rewrite Hset, Hsplit.
  destruct (py_float sz) as [size |]; [destruct (py_float pf) as [profit |] |].
  - now destruct Hbad.
  - exec. send_cases.
  - exec. send_cases.
Qed.

(** Lines 116-120: anything else, with no session open. *)
Lemma telegram_config_help :
  reaches_dialogue (text_of u) = true ->
  dict_get Z.eqb (chat_id u) (user_states st) = None ->
  (lower (text_of u) =? "/set")%string = false ->
  (lower (text_of u) =? "/show")%string = false ->
  telegram_config settings ext u st = notified ext (chat_id u) Help st.
Proof.
  intros Hdirect Hnone Hset Hshow.
  rewrite (telegram_config_dialogue settings ext u st authorised Hdirect).
  unfold dialogue, show_or_help. exec. rewrite Hnone, Hset. exec. rewrite Hshow.
  exec. send_cases.
Qed.

(** An authorised request ends in one notification: delivered, it is the
    only effect and the status is 200; refused, its exception ends the
    request. The sessions are well formed in both final states. *)
Lemma telegram_config_normal_form :
  sessions_wf st ->
  exists (m : Message) (s_ok s_err : State),
    telegram_config settings ext u st
    = match send_message ext (chat_id u) m with
      | Ok _ => {| result := Ok 200; final := s_ok;
                   effects := [Sent (chat_id u) m] |}
      | Raise e => {| result := Raise e; final := s_err; effects := [] |}
      end
    /\ sessions_wf s_ok /\ sessions_wf s_err.
Proof.
  intros Hwf.
  assert (Hset_wf : forall x s,
            session_wf x -> sessions_wf s ->
            sessions_wf {| webhook_secret := webhook_secret s;
                           presets := presets s;
                           user_states := dict_set Z.eqb (chat_id u) x (user_states s) |}).
  { intros x s Hx Hs. unfold sessions_wf. cbn [user_states].
    apply Forall_dict_set; [intros k'; exact Hx | exact Hs]. }
  destruct (startswith "/setsecret " (lower (text_of u))) eqn:H1.
  { destruct (setsecret_argument (text_of u) (strip_fixed _) H1)
      as [cmd [rest [_ [_ [_ Hsplit]]]]].
    rewrite (telegram_config_setsecret settings ext u st authorised cmd _ H1 Hsplit).
    unfold notified. eexists _, _, _. split; [reflexivity |]. split; exact Hwf. }
  destruct (lower (text_of u) =? "/getsecret")%string eqn:H2.
  { apply String.eqb_eq in H2.
    rewrite (telegram_config_getsecret settings ext u st authorised H2).
    unfold notified. eexists _, _, _. split; [reflexivity |]. split; exact Hwf. }
  destruct (startswith "/set " (lower (text_of u))
            && (List.length (split (text_of u)) =? 4)%nat) eqn:H3.
  { apply andb_true_iff in H3. destruct H3 as [Hset Hlen].
    destruct (split (text_of u)) as [| c [| t [| sz [| pf [| x l]]]]] eqn:Hsplit;
      try discriminate Hlen.
    destruct (py_float sz) as [size |] eqn:Hsz;
      [destruct (py_float pf) as [profit |] eqn:Hpf |].
    - rewrite (telegram_config_one_shot settings ext u st authorised c t sz pf
                 size profit Hset Hsplit Hsz Hpf).
      unfold notified. eexists _, _, _. split; [reflexivity |]. split; exact Hwf.
    - rewrite (telegram_config_usage c t sz pf Hset Hsplit (or_intror Hpf)).
      unfold notified. eexists _, _, _. split; [reflexivity |]. split; exact Hwf.
    - rewrite (telegram_config_usage c t sz pf Hset Hsplit (or_introl Hsz)).
      unfold notified. eexists _, _, _. split; [reflexivity |]. split; exact Hwf. }
  assert (Hdirect : reaches_dialogue (text_of u) = true)
    by (unfold reaches_dialogue; now rewrite H1, H2, H3).
  destruct (dict_get Z.eqb (chat_id u) (user_states st)) as [sess |] eqn:Hsess.
  - pose proof (session_wf_lookup st _ sess Hwf Hsess) as Hx.
    unfold session_wf in Hx. destruct (s_step sess) eqn:Hstep.
    + rewrite (telegram_config_ticker settings ext u st authorised sess Hsess
                 Hdirect Hstep).
      unfold notified. eexists _, _, _. split; [reflexivity |].
      split; (apply Hset_wf; [unfold session_wf; cbn; discriminate | exact Hwf]).
    + destruct (py_float (text_of u)) as [size |] eqn:Hf.
      * rewrite (telegram_config_size settings ext u st authorised sess Hsess
                   Hdirect size Hstep Hf).
        unfold notified. eexists _, _, _. split; [reflexivity |].
        split; (apply Hset_wf; [unfold session_wf; cbn; split; [exact Hx | discriminate]
                               | exact Hwf]).
      * rewrite (telegram_config_dialogue settings ext u st authorised Hdirect).
        unfold dialogue. exec. rewrite Hsess, Hstep, Hf. exec.
        exists NumberOnly, st, st. split; [| split; exact Hwf].
        destruct (send_message ext (chat_id u) NumberOnly) as [[] | e] eqn:Hs;
          [ rewrite (bind_notify_ok _ _ ext _ _ Hs)
          | rewrite (bind_notify_raise _ _ ext _ _ _ Hs) ];
          exec; reflexivity.
    + destruct Hx as [Ht Hz].
      destruct (s_ticker sess) as [ticker |] eqn:Hticker; [| contradiction].
      destruct (s_order_size sess) as [size |] eqn:Hsize; [| contradiction].
      destruct (py_float (text_of u)) as [profit |] eqn:Hf.
      * rewrite (telegram_config_profit settings ext u st authorised sess Hsess
                   Hdirect ticker size profit Hstep Hticker Hsize Hf).
        eexists _, _, _. split; [reflexivity |].
        split; [| exact Hwf].
        unfold sessions_wf. cbn [user_states]. now apply Forall_dict_pop.
      * rewrite (telegram_config_dialogue settings ext u st authorised Hdirect).
        unfold dialogue. exec. rewrite Hsess, Hstep, Hf. exec.
        exists NumberOnly, st, st. split; [| split; exact Hwf].
        destruct (send_message ext (chat_id u) NumberOnly) as [[] | e] eqn:Hs;
          [ rewrite (bind_notify_ok _ _ ext _ _ Hs)
          | rewrite (bind_notify_raise _ _ ext _ _ _ Hs) ];
          exec; reflexivity.
  - destruct (lower (text_of u) =? "/set")%string eqn:Hs1.
    { apply String.eqb_eq in Hs1.
      rewrite (telegram_config_opens settings ext u st authorised Hs1 Hsess).
      unfold notified. eexists _, _, _. split; [reflexivity |].
      split; (apply Hset_wf; [exact I | exact Hwf]). }
    destruct (lower (text_of u) =? "/show")%string eqn:Hs2.
    { rewrite (telegram_config_dialogue settings ext u st authorised Hdirect).
      unfold dialogue, show_or_help. exec. rewrite Hsess, Hs1. exec. rewrite Hs2.
      exec.
      destruct (presets st) as [| kv l]; exec;
        match goal with
        | |- context [notify ext ?c ?m] =>
            exists m, st, st; (split; [| split; exact Hwf]);
            destruct (send_message ext c m) as [[] | ?e] eqn:Hs;
            [ rewrite (bind_notify_ok _ _ ext _ _ Hs)
            | rewrite (bind_notify_raise _ _ ext _ _ _ Hs) ]
        end; exec; reflexivity. }
    rewrite (telegram_config_help Hdirect Hsess Hs1 Hs2).
    unfold notified. eexists _, _, _. split; [reflexivity |]. split; exact Hwf.
Qed.

End Sessions.

Lemma telegram_config_keeps_wf
    (settings : Settings) (ext : Collaborators) (u : Update) (st : State) :
  sessions_wf st -> sessions_wf (final (telegram_config settings ext u st)).
Proof.
  intros Hwf.
  destruct (str_of_int (chat_id u) =? TELEGRAM_CHAT_ID settings)%string eqn:Hauth.
  - destruct (telegram_config_normal_form settings ext u st Hauth Hwf)
      as [m [s_ok [s_err [Hrun [Hok Herr]]]]].
    rewrite Hrun. now destruct (send_message ext (chat_id u) m).
  - unfold telegram_config. cbv zeta. rewrite Hauth. exact Hwf.
Qed.

(** The sessions stay well formed over any sequence of requests, whoever
    sends them and whether or not the replies can be delivered. *)
Lemma run_updates_keeps_wf
    (settings : Settings) (ext : Collaborators) (us : list Update) (st : State) :
  sessions_wf st -> sessions_wf (run_updates settings ext us st).
Proof.
  revert st. induction us as [| u r IH]; intros st Hwf; cbn [run_updates];
    [exact Hwf |].
  now apply IH, telegram_config_keeps_wf.
Qed.

Lemma sessions_wf_initial (st : State) : user_states st = [] -> sessions_wf st.
Proof. unfold sessions_wf. intros ->. constructor. Qed.

(** X13. Every authorised request is answered with exactly one message.
    Started with no session open, after any sequence of requests (from any
    chat, their replies delivered or not: the collaborators [past] that
    answered them are any), an authorised request whose reply Telegram
    accepts returns 200 and sends one message, to the chat it came from, and
    nothing else. *)
Theorem telegram_config_replies_once
    (settings : Settings) (past ext : Collaborators) (us : list Update) (u : Update)
    (st0 : State) :
  user_states st0 = [] ->
  (str_of_int (chat_id u) =? TELEGRAM_CHAT_ID settings)%string = true ->
  (forall m : Message, send_message ext (chat_id u) m = Ok tt) ->
  exists m : Message,
    result (telegram_config settings ext u (run_updates settings past us st0)) = Ok 200
    /\ effects (telegram_config settings ext u (run_updates settings past us st0))
       = [Sent (chat_id u) m].
Proof.
  intros Hinit Hauth Hsend.
  pose proof (run_updates_keeps_wf settings past us st0 (sessions_wf_initial _ Hinit))
    as Hwf.
  destruct (telegram_config_normal_form settings ext u _ Hauth Hwf)
    as [m [s_ok [s_err [Hrun _]]]].
  exists m. rewrite Hrun, (Hsend m). now split.
Qed.

(** X14. The configuration handler fails only when Telegram does. Started
    with no session open, after any sequence of requests, an exception that
    ends a request is the one [send_message] raised for the reply: the
    lookups of lines 102 and 103 never raise [KeyError], and line 55 never
    raises [IndexError]. Nothing was sent before the failure. *)
Theorem telegram_config_fails_only_on_send
    (settings : Settings) (ext : Collaborators) (us : list Update) (u : Update)
    (st0 : State) (e : exn) :
  user_states st0 = [] ->
  result (telegram_config settings ext u (run_updates settings ext us st0)) = Raise e ->
  (exists m : Message, send_message ext (chat_id u) m = Raise e)
  /\ effects (telegram_config settings ext u (run_updates settings ext us st0)) = [].
Proof.
  intros Hinit.
  pose proof (run_updates_keeps_wf settings ext us st0 (sessions_wf_initial _ Hinit))
    as Hwf.
  destruct (str_of_int (chat_id u) =? TELEGRAM_CHAT_ID settings)%string eqn:Hauth.
  - destruct (telegram_config_normal_form settings ext u _ Hauth Hwf)
      as [m [s_ok [s_err [Hrun _]]]].
    rewrite Hrun. destruct (send_message ext (chat_id u) m) as [[] | e'] eqn:Hs;
      cbn [result effects]; intros [= <-]. split; [now exists m | reflexivity].
  - unfold telegram_config. cbv zeta. rewrite Hauth. cbn [negb]. discriminate.
Qed.

Lemma telegram_config_replies_once_witness :
  exists m : Message,
    result (telegram_config Sample.settings Sample.ext (message 42 "12.5")
              (run_updates Sample.settings Sample.ext_telegram_down
                 [message 42 "/set"; message 7 "/show"; message 42 "tsla"]
                 Sample.empty)) = Ok 200
    /\ effects (telegram_config Sample.settings Sample.ext (message 42 "12.5")
                  (run_updates Sample.settings Sample.ext_telegram_down
                     [message 42 "/set"; message 7 "/show"; message 42 "tsla"]
                     Sample.empty))
       = [Sent 42 m].
Proof.
  exact (telegram_config_replies_once Sample.settings Sample.ext_telegram_down
           Sample.ext
           [message 42 "/set"; message 7 "/show"; message 42 "tsla"]
           (message 42 "12.5") Sample.empty eq_refl eq_refl (fun m => eq_refl)).
Defined.

Lemma telegram_config_fails_only_on_send_witness :
  (exists m : Message,
     send_message Sample.ext_telegram_down 42 m = Raise DownstreamError)
  /\ effects (telegram_config Sample.settings Sample.ext_telegram_down
                (message 42 "/show")
                (run_updates Sample.settings Sample.ext_telegram_down
                   [message 42 "/set"] Sample.empty))
     = [].
Proof.
  exact (telegram_config_fails_only_on_send Sample.settings Sample.ext_telegram_down
           [message 42 "/set"] (message 42 "/show") Sample.empty DownstreamError
           eq_refl eq_refl).
Defined.

(** ** The chat that configures is the chat that is notified *)

Module IntText.

Lemma read_digits_uint (d : Decimal.uint) (acc count : Z) :
  read_digits acc count (NilEmpty.string_of_uint d)
  = (uint_val acc d, count + Z.of_N (Unsigned.usize d), EmptyString).
Proof.
  revert acc count.
  induction d as [| d IH | d IH | d IH | d IH | d IH | d IH | d IH | d IH | d IH | d IH];
    intros acc count;
    cbn [NilEmpty.string_of_uint read_digits uint_val Unsigned.usize];
    try (change (isdigit _) with true; cbv iota; rewrite IH; f_equal; f_equal;
         rewrite N2Z.inj_succ; lia).
  now rewrite Z.add_0_r.
Qed.

Lemma uint_val_spec (d : Decimal.uint) (acc : Z) :
  uint_val acc d
  = acc * 10 ^ Z.of_N (Unsigned.usize d) + Z.of_N (Unsigned.of_lu (Decimal.rev d)).
Proof.
  revert acc.
  induction d as [| d IH | d IH | d IH | d IH | d IH | d IH | d IH | d IH | d IH | d IH];
    intros acc; cbn [uint_val Unsigned.usize];
    [ cbn; ring | .. ];
    rewrite IH;
    match goal with
    | |- context [Unsigned.of_lu (Decimal.rev (?c d))] =>
        change (Decimal.rev (c d)) with (Decimal.revapp d (c Decimal.Nil));
        rewrite (Unsigned.of_lu_revapp d (c Decimal.Nil));
        let v := eval vm_compute in (Unsigned.of_lu (c Decimal.Nil)) in
        change (Unsigned.of_lu (c Decimal.Nil)) with v
    end;
    rewrite N2Z.inj_succ, Z.pow_succ_r by apply N2Z.is_nonneg;
    rewrite N2Z.inj_add, N2Z.inj_mul, N2Z.inj_pow;
    change (Z.of_N 10) with 10;
    cbn [Z.of_N]; ring.
Qed.

Lemma uint_val_to_uint (p : positive) : uint_val 0 (Pos.to_uint p) = Z.pos p.
Proof.
  rewrite uint_val_spec, <- Unsigned.of_uint_alt, Unsigned.of_to. reflexivity.
Qed.

End IntText.

Module IntRoundTrip.

Import IntText.

Lemma isdigit_not_underscore (c : ascii) : isdigit c = true -> is_underscore c = false.
Proof.
  unfold isdigit, is_underscore. intros H. apply andb_true_iff in H.
  destruct H as [_ H]. apply N.leb_le in H. apply N.eqb_neq. lia.
Qed.

Lemma isdigit_not_space (c : ascii) : isdigit c = true -> isspace_num c = false.
Proof.
  unfold isdigit, isspace_num. intros H. apply andb_true_iff in H.
  destruct H as [H1 H2]. apply N.leb_le in H1. apply N.leb_le in H2.
  repeat rewrite orb_false_iff. repeat split.
  - apply andb_false_iff. right. apply N.leb_gt. lia.
  - apply N.eqb_neq. lia.
  - apply N.eqb_neq. lia.
  - apply N.eqb_neq. lia.
Qed.

Lemma digits_of_uint (d : Decimal.uint) :
  all_chars isdigit (NilEmpty.string_of_uint d) = true.
Proof.
  induction d; cbn [NilEmpty.string_of_uint all_chars]; try reflexivity;
    now rewrite IHd.
Qed.

Lemma drop_underscores_digits (s : string) (prev : option ascii) :
  all_chars isdigit s = true ->
  prev_is is_underscore prev = false ->
  drop_underscores prev s = Some s.
Proof.
  revert prev. induction s as [| c r IH]; intros prev Hs Hp; cbn [drop_underscores].
  - now rewrite Hp.
  - cbn [all_chars] in Hs. apply andb_true_iff in Hs. destruct Hs as [Hc Hr].
    rewrite (isdigit_not_underscore c Hc), Hc, Hp. cbn [negb andb].
    rewrite (IH (Some c) Hr); [reflexivity |].
    exact (isdigit_not_underscore c Hc).
Qed.

Lemma rstrip_digits (s : string) :
  all_chars isdigit s = true -> rstrip_with isspace_num s = s.
Proof.
  induction s as [| c r IH]; [reflexivity |]. cbn [all_chars rstrip_with].
  intros H. apply andb_true_iff in H. destruct H as [Hc Hr].
  now rewrite (isdigit_not_space c Hc), (IH Hr).
Qed.

Lemma strip_digits (s : string) :
  all_chars isdigit s = true -> strip_with isspace_num s = s.
Proof.
  intros H. unfold strip_with. destruct s as [| c r]; [reflexivity |].
  cbn [lstrip_with]. cbn [all_chars] in H.
  pose proof H as H'. apply andb_true_iff in H'. destruct H' as [Hc _].
  rewrite (isdigit_not_space c Hc). now apply rstrip_digits.
Qed.

Lemma py_int_of_uint (p : positive) :
  py_int (NilEmpty.string_of_uint (Pos.to_uint p)) = Some (Z.pos p).
Proof.
  pose proof (digits_of_uint (Pos.to_uint p)) as Hd.
  unfold py_int. rewrite (drop_underscores_digits _ None Hd eq_refl).
  rewrite (strip_digits _ Hd).
  assert (Hsign : read_sign (NilEmpty.string_of_uint (Pos.to_uint p))
                  = (false, NilEmpty.string_of_uint (Pos.to_uint p))).
  { destruct (Pos.to_uint p); reflexivity. }
  rewrite Hsign, read_digits_uint, uint_val_to_uint.
  pose proof (Unsigned.to_uint_nonnil p) as Hnil.
  destruct (Pos.to_uint p); try contradiction;
    cbn [Unsigned.usize]; rewrite N2Z.inj_succ;
    (replace (0 <? 0 + Z.succ _)%Z with true; [reflexivity |]);
    symmetry; apply Z.ltb_lt; lia.
Qed.

Lemma py_int_of_neg_uint (p : positive) :
  py_int (String "-" (NilEmpty.string_of_uint (Pos.to_uint p))) = Some (Z.neg p).
Proof.
  pose proof (digits_of_uint (Pos.to_uint p)) as Hd.
  unfold py_int. cbn [drop_underscores prev_is].
  change (is_underscore "-") with false. cbv iota. cbn [andb].
  rewrite (drop_underscores_digits _ (Some "-"%char) Hd eq_refl). cbn [option_map].
  unfold strip_with. cbn [lstrip_with]. change (isspace_num "-") with false.
  cbv iota. cbn [rstrip_with]. change (isspace_num "-") with false. cbn [andb].
  rewrite (rstrip_digits _ Hd). cbn [read_sign].
  rewrite read_digits_uint, uint_val_to_uint.
  pose proof (Unsigned.to_uint_nonnil p) as Hnil.
  destruct (Pos.to_uint p); try contradiction;
    cbn [Unsigned.usize]; rewrite N2Z.inj_succ;
    (replace (0 <? 0 + Z.succ _)%Z with true; [reflexivity |]);
    symmetry; apply Z.ltb_lt; lia.
Qed.

(** [int(str(n)) == n] *)
Lemma py_int_str_of_int (n : Z) : py_int (str_of_int n) = Some n.
Proof.
  pose proof Unsigned.to_uint_nonnil as Hnil.
  destruct n as [| p | p]; unfold str_of_int, Z.to_int,
    NilZero.string_of_int, NilZero.string_of_uint.
  - reflexivity.
  - specialize (Hnil p). destruct (Pos.to_uint p) eqn:E; try contradiction;
      rewrite <- E; apply py_int_of_uint.
  - specialize (Hnil p). destruct (Pos.to_uint p) eqn:E; try contradiction;
      rewrite <- E; apply py_int_of_neg_uint.
Qed.

End IntRoundTrip.

(** X15. The chat that may configure the bot is the chat the webhook
    notifies. When a message is authorised, that is when the decimal text of
    its chat id is [TELEGRAM_CHAT_ID], [int(TELEGRAM_CHAT_ID)] is that chat
    id: [notify(int(settings.TELEGRAM_CHAT_ID), ...)] raises no [ValueError]
    and sends to the chat the message came from. *)
Theorem operator_is_notified
    (settings : Settings) (ext : Collaborators) (u : Update) (m : Message) (st : State) :
  (str_of_int (chat_id u) =? TELEGRAM_CHAT_ID settings)%string = true ->
  py_int (TELEGRAM_CHAT_ID settings) = Some (chat_id u)
  /\ notify_operator settings ext m st = notify ext (chat_id u) m st.
Proof.
  intros H. apply String.eqb_eq in H.
  assert (Hint : py_int (TELEGRAM_CHAT_ID settings) = Some (chat_id u)).
  { rewrite <- H. apply IntRoundTrip.py_int_str_of_int. }
  split; [exact Hint |].
  unfold notify_operator. rewrite Hint. cbn [of_option].
  now rewrite bind_lift_ok.
Qed.

Lemma operator_is_notified_witness :
  py_int (TELEGRAM_CHAT_ID Sample.settings) = Some 42
  /\ notify_operator Sample.settings Sample.ext Help Sample.empty
     = notify Sample.ext 42 Help Sample.empty.
Proof.
  exact (operator_is_notified Sample.settings Sample.ext (message 42 "hello")
           Help Sample.empty eq_refl).
Defined.
